(** * pdf2pptx4win: PDF pages rasterised onto full-bleed slides

    A shallow embedding of [src/pdf2pptx.py] and [src/main.py].

    Python values are modelled as the code has them: [float] is IEEE
    binary64 (Rocq's primitive floats), [int] is [Z], [str] is [string],
    [None]-able arguments are [option]s, and the [ratios] and
    [quality_settings] dictionaries are finite maps.  The file system, the
    standard output and the calls into the external libraries (PyMuPDF,
    Pillow, python-pptx) are threaded through a state-and-exception monad. *)

From Stdlib Require Import ZArith Lia Floats.
From Stdlib Require Import Ascii.
From stdpp Require Import base option list strings gmap pretty.

Set Warnings "-inexact-float".

(** ** Python numbers *)

(** [float(z)] for a Python [int]: the nearest binary64 value, ties to even. *)
Definition float_of_int (z : Z) : float :=
  SF2Prim (binary_normalize prec emax z 0 false).

(** ** Exceptions and outcomes *)

(** An exception in flight.  [Exception cls msg] stands for an instance of
    any subclass of Python's [Exception] ([cls] is the class name, [msg] is
    [str(e)]); [SystemExit] is what [sys.exit] raises and derives from
    [BaseException] only, so [except Exception] does not catch it. *)
Inductive exn : Type :=
  | Exception (cls msg : string)
  | SystemExit (code : Z).

Inductive outcome (A : Type) : Type :=
  | Return (a : A)
  | Raise (e : exn).
Arguments Return {A} a.
Arguments Raise {A} e.

(** [int(x)] for a Python [float]: truncation toward zero; NaN and the
    infinities raise. *)
Definition int_of_float (x : float) : outcome Z :=
  match Prim2SF x with
  | S754_zero _ => Return 0%Z
  | S754_finite s m e =>
      let a := if (0 <=? e)%Z then Z.shiftl (Z.pos m) e
               else Z.shiftr (Z.pos m) (- e) in
      Return (if s then (- a)%Z else a)
  | S754_infinity _ =>
      Raise (Exception "OverflowError" "cannot convert float infinity to integer")
  | S754_nan =>
      Raise (Exception "ValueError" "cannot convert float NaN to integer")
  end.

(** [a / b] on two Python [int]s (true division).  Raster dimensions are C
    ints, far below 2^53, so both operands convert exactly and the correctly
    rounded quotient is the binary64 quotient of the converted operands. *)
Definition int_truediv (a b : Z) : outcome float :=
  if (b =? 0)%Z then Raise (Exception "ZeroDivisionError" "division by zero")
  else Return (float_of_int a / float_of_int b)%float.

(** Truthiness of an optional float argument: [None] and zero (either sign)
    are falsy, everything else (NaN included) is truthy. *)
Definition truthy_float (x : option float) : bool :=
  match x with
  | None => false
  | Some v => negb (v =? 0)%float
  end.

(** ** get_slide_dimensions *)

(** The items of the [ratios] dictionary: width and height in inches. *)
Definition ratios_items : list (string * (float * float)) :=
    [ ("4:3", (10.0, 7.5)%float);
      ("16:9", (13.333, 7.5)%float);
      ("16:10", (13.0, 8.125)%float);
      ("a4", (11.69, 8.27)%float);
      ("letter", (11.0, 8.5)%float);
      ("wide", (13.333, 7.5)%float);
      ("standard", (10.0, 7.5)%float);
      ("square", (10.0, 10.0)%float);
      ("portrait", (7.5, 10.0)%float) ].

Definition ratios : gmap string (float * float) := list_to_map ratios_items.

(** [ratios["4:3"]]: the key is present in the literal above, so the
    subscript cannot raise. *)
Definition ratios_4_3 : float * float := default (10.0, 7.5)%float (ratios !! "4:3").

Definition get_slide_dimensions (aspect_ratio : string)
    (custom_width custom_height : option float) : float * float :=
  if bool_decide (aspect_ratio = "custom")
     && truthy_float custom_width && truthy_float custom_height
  then (default 0%float custom_width, default 0%float custom_height)
  else default ratios_4_3 (ratios !! aspect_ratio).

(** The keyword set of the aspect-ratio table ([--aspect]'s choices). *)
Definition aspect_keywords : list string :=
  [ "4:3"; "16:9"; "16:10"; "a4"; "letter"; "wide"; "standard"; "square";
    "portrait"; "custom" ].

(** ** The world: files, standard output, external calls *)

(** A raster as PyMuPDF returns it; [pix_samples] stands for the pixel
    buffer and identifies the rendering it came from, [pix_xres] is the
    resolution the raster is tagged with ([pix.xres], equal to [pix.yres]
    throughout). *)
Record pixmap : Type := Pixmap {
  pix_width : Z;
  pix_height : Z;
  pix_samples : list Z;
  pix_xres : Z }.

(** An image, in memory or as a PNG file holds it: its size, the pixel
    buffer it was built from, whether the SHARPEN filter was applied and the
    resolution recorded with it, if any (the [dpi] it is saved with). *)
Record image : Type := Image {
  img_width : Z;
  img_height : Z;
  img_samples : list Z;
  img_sharpened : bool;
  img_dpi : option Z }.

(** What the external rasteriser answers for one page: a raster (tagged
    with the rasteriser's own default resolution), or an error of class
    [cls] with message [msg].  Library calls raise instances of [Exception]
    subclasses only. *)
Inductive rendering : Type :=
  | Rendered (pix : pixmap)
  | RenderError (cls msg : string).

(** A page of an open document: [get_pixmap dpi] is what the rasteriser
    answers when [page.get_pixmap(dpi=dpi)] has it draw the page. *)
Record page : Type := Page {
  get_pixmap : option Z -> rendering }.

(** A picture shape on a slide, offsets and extents in EMU. *)
Record picture : Type := Picture {
  pic_image : image;
  pic_left : Z;
  pic_top : Z;
  pic_width : Z;
  pic_height : Z }.

Record slide : Type := Slide { shapes : list picture }.

Record presentation : Type := Presentation {
  slide_width : Z;
  slide_height : Z;
  slides : list slide }.

Inductive file : Type :=
  | Document (pages : list page)      (* anything fitz.open can open *)
  | PngFile (img : image)
  | PptxFile (prs : presentation)
  | OtherFile.

(** A path as pathlib sees it: the directory ([str(p.parent)]) and the final
    component ([p.name]).  The final component is empty for [.] and for the
    roots only. *)
Record Path : Type := MkPath { parent : string; name : string }.

#[global] Instance Path_eq_dec : EqDecision Path.
Proof. solve_decision. Defined.

(** Calls that reach outside the process, in the order they happen. *)
Inductive event : Type :=
  | EvStat (p : Path)
  | EvOpen (p : Path)
  | EvRead (p : Path)
  | EvWrite (p : Path)
  | EvMkdtemp (d : string)
  | EvRmtree (d : string)
  | EvRender (dpi : option Z).

(** Directories by path, each holding its files by name; what was written to
    standard output, one entry per write; the external calls so far.  A path
    handed to the program names a file or nothing: a directory sitting where
    the program looks for a file or writes one, access rights, links and
    [..] components are not represented. *)
Record world : Type := World {
  fs : gmap string (gmap string file);
  stdout : list string;
  trace : list event }.

Definition lookup_file (w : world) (p : Path) : option file :=
  fs w !! parent p ≫= λ d, d !! name p.

Definition log (ev : event) (w : world) : world :=
  World (fs w) (stdout w) (trace w ++ [ev]).

(** ** The state-and-exception monad *)

Definition M (A : Type) : Type := world -> outcome A * world.

Definition ret {A} (a : A) : M A := λ w, (Return a, w).

Definition bind {A B} (m : M A) (k : A -> M B) : M B := λ w,
  match m w with
  | (Return a, w') => k a w'
  | (Raise e, w') => (Raise e, w')
  end.

Definition raise {A} (e : exn) : M A := λ w, (Raise e, w).

(** Sequencing of pure computations that may raise. *)
Definition obind {A B} (o : outcome A) (k : A -> outcome B) : outcome B :=
  match o with
  | Return a => k a
  | Raise e => Raise e
  end.

(** A pure computation that may raise, run inside [M]. *)
Definition lift {A} (o : outcome A) : M A := λ w, (o, w).

(** [try: body / except Exception as e: handler(e)]. *)
Definition try_except {A} (body : M A) (handler : string -> string -> M A) : M A := λ w,
  match body w with
  | (Raise (Exception cls msg), w') => handler cls msg w'
  | r => r
  end.

Declare Scope py_scope.
Delimit Scope py_scope with py.
Notation "x <- m ;; k" := (bind m (λ x, k))
  (at level 100, m at next level, right associativity) : py_scope.
Notation "m ;; k" := (bind m (λ _, k))
  (at level 100, right associativity) : py_scope.
Notation "x <- o ;;; k" := (obind o (λ x, k))
  (at level 100, o at next level, right associativity) : py_scope.
Local Open Scope py_scope.

(** The carriage return and line feed characters. *)
Definition CR : string := String "013"%char EmptyString.
Definition LF : string := String "010"%char EmptyString.

(** [sys.stdout.write(s)] and [print(s)]. *)
Definition stdout_write (s : string) : M unit := λ w,
  (Return tt, World (fs w) (stdout w ++ [s]) (trace w)).

Definition print (s : string) : M unit := stdout_write (s +:+ LF).

(** [sys.exit(code)]. *)
Definition sys_exit {A} (code : Z) : M A := raise (SystemExit code).

(** ** Paths *)

(** Split at the last occurrence of [sep]. *)
Fixpoint split_last (sep : ascii) (s : string) : option (string * string) :=
  match s with
  | EmptyString => None
  | String c s' =>
      match split_last sep s' with
      | Some (a, b) => Some (String c a, b)
      | None => if bool_decide (c = sep) then Some (EmptyString, s') else None
      end
  end.

(** [s.split(sep)]: the pieces between the occurrences of [sep]. *)
Fixpoint split_on (sep : ascii) (s : string) : list string :=
  match s with
  | EmptyString => [EmptyString]
  | String c s' =>
      if bool_decide (c = sep) then EmptyString :: split_on sep s'
      else match split_on sep s' with
           | [] => [String c EmptyString]
           | x :: xs => String c x :: xs
           end
  end.

(** [sep.join(l)]. *)
Fixpoint join_with (sep : string) (l : list string) : string :=
  match l with
  | [] => EmptyString
  | [x] => x
  | x :: l' => x +:+ sep +:+ join_with sep l'
  end.

(** The root of a POSIX path: [/], or [//] when the path starts with
    exactly two slashes, or none. *)
Definition path_root (s : string) : string :=
  match s with
  | String c1 (String c2 (String c3 _)) =>
      if bool_decide (c1 = "/"%char) then
        if bool_decide (c2 = "/"%char) then
          if bool_decide (c3 = "/"%char) then "/" else "//"
        else "/"
      else ""
  | String c1 (String c2 EmptyString) =>
      if bool_decide (c1 = "/"%char) then
        if bool_decide (c2 = "/"%char) then "//" else "/"
      else ""
  | String c1 EmptyString => if bool_decide (c1 = "/"%char) then "/" else ""
  | EmptyString => ""
  end.

(** The components of a path: what lies between the separators, without
    the empty pieces and the single dots. *)
Definition path_parts (s : string) : list string :=
  filter (λ c, c ≠ "" ∧ c ≠ ".") (split_on "/"%char s).

(** [str(p.parent)] from the root and the components before the last. *)
Definition path_dir (root : string) (parts : list string) : string :=
  match parts with
  | [] => if bool_decide (root = "") then "." else root
  | _ => root +:+ join_with "/" parts
  end.

(** [Path(s)] on POSIX: redundant separators, single dots and a trailing
    separator are dropped; [..] is kept as a component. *)
Definition Path_of_string (s : string) : Path :=
  match reverse (path_parts s) with
  | [] => MkPath (path_dir (path_root s) []) ""
  | n :: before => MkPath (path_dir (path_root s) (reverse before)) n
  end.

(** [str(p)]. *)
Definition str_of_Path (p : Path) : string :=
  if bool_decide (name p = "") then parent p
  else if bool_decide (parent p = ".") then name p
  else if bool_decide (parent p = "/") || bool_decide (parent p = "//")
  then parent p +:+ name p
  else parent p +:+ "/" +:+ name p.

(** [repr(s)] for a string: in single quotes, or in double quotes when the
    string has a single quote and no double quote; the quote, the backslash
    and the control characters are escaped.  Bytes above 127 are kept: text
    outside ASCII is taken to be printable. *)
Definition SQ : ascii := "039"%char.
Definition DQ : ascii := "034"%char.
Definition BS : ascii := "092"%char.

Fixpoint string_has (c : ascii) (s : string) : bool :=
  match s with
  | EmptyString => false
  | String c' s' => bool_decide (c' = c) || string_has c s'
  end.

Definition hex_digit (n : N) : ascii :=
  ascii_of_N (if (n <? 10)%N then 48 + n else 87 + n).

Definition repr_char (quote c : ascii) : string :=
  if bool_decide (c = quote) || bool_decide (c = BS) then String BS (String c EmptyString)
  else if bool_decide (c = "009"%char) then String BS "t"
  else if bool_decide (c = "010"%char) then String BS "n"
  else if bool_decide (c = "013"%char) then String BS "r"
  else let n := N_of_ascii c in
       if (n <? 32)%N || (n =? 127)%N
       then String BS (String "x" (String (hex_digit (n / 16)) (String (hex_digit (n mod 16)) EmptyString)))
       else String c EmptyString.

Fixpoint repr_chars (quote : ascii) (s : string) : string :=
  match s with
  | EmptyString => EmptyString
  | String c s' => repr_char quote c +:+ repr_chars quote s'
  end.

Definition py_repr (s : string) : string :=
  let quote := if string_has SQ s && negb (string_has DQ s) then DQ else SQ in
  String quote (repr_chars quote s +:+ String quote EmptyString).

(** [dir / n] for a directory named [dir]. *)
Definition Path_join (dir n : string) : Path := MkPath dir n.

(** [p.with_suffix(suffix)]: the extension of the final component (what
    follows its last dot, when that dot is neither first nor last) is
    replaced; an empty name raises. *)
Definition with_suffix (p : Path) (suffix : string) : outcome Path :=
  if bool_decide (name p = "") then
    Raise (Exception "ValueError"
             ("PosixPath(" +:+ py_repr (str_of_Path p) +:+ ") has an empty name"))
  else
    match split_last "."%char (name p) with
    | Some (String c stem, String c' ext) =>
        Return (MkPath (parent p) (String c stem +:+ suffix))
    | _ => Return (MkPath (parent p) (name p +:+ suffix))
    end.

(** [os.path.join(a, b)] (POSIX) for a relative [b]. *)
Definition os_path_join (a b : string) : string :=
  if bool_decide (a = "") then b
  else match split_last "/"%char a with
       | Some (_, EmptyString) => a +:+ b
       | _ => a +:+ "/" +:+ b
       end.

(** ** File-system calls *)

(** [p.exists()]. *)
Definition Path_exists (p : Path) : M bool := λ w,
  (Return (bool_decide (is_Some (lookup_file w p))), log (EvStat p) w).

(** What [open] raises when the directory of the file is not there;
    [shown] is the file name as it was handed to [open]. *)
Definition no_such_file (shown : string) : exn :=
  Exception "FileNotFoundError" ("[Errno 2] No such file or directory: " +:+ py_repr shown).

(** [fitz.open(p)].  The messages are PyMuPDF's for a file that is not
    there and, in outline, for one it cannot read as a document. *)
Definition fitz_open (p : Path) : M (list page) := λ w,
  let w' := log (EvOpen p) w in
  match lookup_file w p with
  | Some (Document pages) => (Return pages, w')
  | Some _ => (Raise (Exception "FileDataError" "Failed to open file"), w')
  | None =>
      (Raise (Exception "FileNotFoundError" ("no such file: '" +:+ str_of_Path p +:+ "'")), w')
  end.

(** Creating or replacing the file at [p] through Python's [open]
    ([img.save], [prs.save]); the directory must exist. *)
Definition write_file (p : Path) (f : file) : M unit := λ w,
  let w' := log (EvWrite p) w in
  match fs w !! parent p with
  | Some d =>
      (Return tt, World (<[parent p := <[name p := f]> d]> (fs w')) (stdout w') (trace w'))
  | None => (Raise (no_such_file (str_of_Path p)), w')
  end.

(** Reading the image file at [p], as [add_picture] does. *)
Definition read_image (p : Path) : M image := λ w,
  let w' := log (EvRead p) w in
  match lookup_file w p with
  | Some (PngFile img) => (Return img, w')
  | Some _ => (Raise (Exception "UnidentifiedImageError" "cannot identify image file"), w')
  | None => (Raise (no_such_file (str_of_Path p)), w')
  end.

(** The name [tempfile] picks for a new directory: one no directory has. *)
Definition mkdtemp_name (w : world) : string := fresh (dom (fs w)).

(** Removing the directory [d] with everything in it. *)
Definition rmtree (d : string) (w : world) : world :=
  World (delete d (fs w)) (stdout w) (trace w ++ [EvRmtree d]).

(** [with tempfile.TemporaryDirectory() as temp_dir: body]: a new, empty
    directory, removed with everything in it when the block is left,
    whether by completion or by an exception. *)
Definition with_TemporaryDirectory {A} (body : string -> M A) : M A := λ w,
  let d := mkdtemp_name w in
  let w1 := World (<[d := ∅]> (fs w)) (stdout w) (trace w ++ [EvMkdtemp d]) in
  let '(r, w2) := body d w1 in
  (r, rmtree d w2).

(** ** Pillow *)

(** [Image.frombytes("RGB", (pix.width, pix.height), pix.samples)]. *)
Definition Image_frombytes (pix : pixmap) : image :=
  Image (pix_width pix) (pix_height pix) (pix_samples pix) false None.

(** [img.resize((w, h), Image.Resampling.LANCZOS)]: Pillow refuses a target
    with a side below one pixel. *)
Definition Image_resize (img : image) (w h : Z) : outcome image :=
  if (w <? 1)%Z || (h <? 1)%Z then
    Raise (Exception "ValueError" "height and width must be > 0")
  else Return (Image w h (img_samples img) (img_sharpened img) (img_dpi img)).

(** [img.filter(ImageFilter.SHARPEN)]. *)
Definition Image_sharpen (img : image) : image :=
  Image (img_width img) (img_height img) (img_samples img) true (img_dpi img).

(** ** PyMuPDF *)

(** Truthiness of an optional [int]: [None] and zero are falsy. *)
Definition truthy_int (x : option Z) : bool :=
  match x with
  | None => false
  | Some v => negb (v =? 0)%Z
  end.

(** [pix.set_dpi(xres, xres)]. *)
Definition Pixmap_set_dpi (pix : pixmap) (xres : Z) : pixmap :=
  Pixmap (pix_width pix) (pix_height pix) (pix_samples pix) xres.

(** [page.get_pixmap(dpi=dpi)] (and with [alpha=False], its default): the
    page is drawn and, [if dpi:], the raster is tagged with that resolution
    ([pix.set_dpi(dpi, dpi)]). *)
Definition page_get_pixmap (pg : page) (dpi : option Z) : M pixmap := λ w,
  (match get_pixmap pg dpi with
   | Rendered pix =>
       Return (if truthy_int dpi then Pixmap_set_dpi pix (default 0%Z dpi) else pix)
   | RenderError cls msg => Raise (Exception cls msg)
   end, log (EvRender dpi) w).

(** [pdf_doc[page_num]]: an index at or beyond the page count raises; a
    negative index has the page count added until it is no longer negative.
    (On a document without pages that addition never gets there; the model
    has no page to give and raises.) *)
Definition doc_getitem (doc : list page) (page_num : Z) : outcome page :=
  let n := Z.of_nat (length doc) in
  let not_in_document :=
    Exception "IndexError" ("page " +:+ pretty page_num +:+ " not in document") in
  if (n <=? page_num)%Z then Raise not_in_document
  else match doc !! Z.to_nat (page_num mod n) with
       | Some pg => Return pg
       | None => Raise not_in_document
       end.

(** ** python-pptx *)

(** [Presentation()]: the default template, 10 by 7.5 inches, no slides. *)
Definition Presentation_new : presentation := Presentation 9144000 6858000 [].

(** [Inches(x)]: [int(x * 914400)] English Metric Units. *)
Definition Inches (x : float) : outcome Z :=
  int_of_float (x * float_of_int 914400)%float.

(** [Inches(n)] for a Python [int]: integer arithmetic throughout. *)
Definition Inches_int (n : Z) : Z := (n * 914400)%Z.

(** A slide extent must lie between 1 and 56 inches (python-pptx validates
    the [cx] and [cy] attributes on assignment). *)
Definition valid_slide_extent (v : Z) : bool :=
  (914400 <=? v)%Z && (v <=? 51206400)%Z.

Definition slide_extent_error (v : Z) : exn :=
  Exception "ValueError"
    ("value must be in range(914400, 51206400) (1-56 inches), got " +:+ pretty v).

(** [prs.slide_width = v] and [prs.slide_height = v]. *)
Definition set_slide_width (prs : presentation) (v : Z) : outcome presentation :=
  if valid_slide_extent v then Return (Presentation v (slide_height prs) (slides prs))
  else Raise (slide_extent_error v).

Definition set_slide_height (prs : presentation) (v : Z) : outcome presentation :=
  if valid_slide_extent v then Return (Presentation (slide_width prs) v (slides prs))
  else Raise (slide_extent_error v).

(** [prs.slides.add_slide(prs.slide_layouts[6])]: a slide of the blank
    layout (no placeholder shapes) is appended; the slide is referred to by
    its position in [prs.slides]. *)
Definition add_slide (prs : presentation) : presentation * nat :=
  (Presentation (slide_width prs) (slide_height prs) (slides prs ++ [Slide []]),
   length (slides prs)).

(** [slide.shapes.add_picture(path, left, top, width=, height=)] on the
    slide at position [i]: the image file is read and a picture shape with
    the given offsets and extents is appended to the slide's shapes. *)
Definition add_picture (prs : presentation) (i : nat) (path : Path)
    (left top width height : Z) : M presentation :=
  img <- read_image path ;;
  ret (Presentation (slide_width prs) (slide_height prs)
         (alter (λ s, Slide (shapes s ++ [Picture img left top width height])) i (slides prs))).

(** [prs.save(path)]. *)
Definition Presentation_save (prs : presentation) (path : Path) : M unit :=
  write_file path (PptxFile prs).

(** ** Loops *)

(** [for i, x in enumerate(l): s = body(i, x, s)], counting from [i]; the
    objects the body mutates are carried as [s]. *)
Fixpoint for_enumerate {A St} (body : Z -> A -> St -> M St) (i : Z) (l : list A) (s : St) : M St :=
  match l with
  | [] => ret s
  | x :: l' => s' <- body i x s ;; for_enumerate body (i + 1)%Z l' s'
  end.

(** ** pdf_to_pptx *)

Definition quality_settings : gmap string Z :=
  list_to_map [ ("low", 150%Z); ("medium", 300%Z); ("high", 600%Z); ("ultra", 1200%Z) ].

(** Lines 168-169 of pdf2pptx.py: the DPI the pages are rendered at. *)
Definition effective_dpi (quality : string) (dpi : option Z) : option Z :=
  if bool_decide (dpi = None) && bool_decide (is_Some (quality_settings !! quality))
  then Some (default 600%Z (quality_settings !! quality))
  else dpi.

Definition target_height : Z := 1024.

(** The width the raster is resized to: [int(img.width * ratio)] with
    [ratio = target_height / img.height]. *)
Definition resized_width (img : image) : outcome Z :=
  ratio <- int_truediv target_height (img_height img) ;;;
  int_of_float (float_of_int (img_width img) * ratio)%float.

(** The part of the loop body the two converters share (pdf2pptx.py lines
    197-220, main.py lines 62-85): render, resize, save to the scratch
    directory, add a slide and cover it with the picture. *)
Definition page_to_slide (temp_dir : string) (dpi : option Z)
    (i : Z) (pg : page) (prs : presentation) : M presentation :=
  pix <- page_get_pixmap pg dpi ;;
  let img := Image_frombytes pix in
  new_width <- lift (resized_width img) ;;
  img <- lift (Image_resize img new_width target_height) ;;
  let img_path := Path_join temp_dir ("slide-" +:+ pretty i +:+ ".png") in
  write_file img_path (PngFile img) ;;
  let '(prs, slide) := add_slide prs in
  let left := Inches_int 0 in
  let top := left in
  add_picture prs slide img_path left top (slide_width prs) (slide_height prs).

Definition truthy_str (s : option string) : bool :=
  match s with
  | None => false
  | Some v => negb (bool_decide (v = ""))
  end.

(** [pdf_to_pptx] of pdf2pptx.py.  [pdf_path] goes through [Path(...)]
    first, which leaves a [Path] as it is; the embedding takes the [Path].
    [pdf_doc.close()] changes nothing the world records and is left out. *)
Definition pdf_to_pptx (pdf_path : Path) (output_path : option string)
    (aspect_ratio : string) (custom_width custom_height : option float)
    (quality : string) (dpi : option Z) (method : string) : M bool :=
  found <- Path_exists pdf_path ;;
  if negb found then
    print ("Error: File " +:+ str_of_Path pdf_path +:+ " not found.") ;;
    ret false
  else
    output_path <- (if truthy_str output_path
                    then ret (Path_of_string (default "" output_path))
                    else lift (with_suffix pdf_path ".pptx")) ;;
    let '(width_inches, height_inches) :=
      get_slide_dimensions aspect_ratio custom_width custom_height in
    let dpi := effective_dpi quality dpi in
    with_TemporaryDirectory (λ temp_dir,
      print ("Processing: " +:+ name pdf_path) ;;
      pdf_doc <- fitz_open pdf_path ;;
      print ("PDF pages: " +:+ pretty (Z.of_nat (length pdf_doc))) ;;
      let prs := Presentation_new in
      sw <- lift (Inches width_inches) ;;
      prs <- lift (set_slide_width prs sw) ;;
      sh <- lift (Inches height_inches) ;;
      prs <- lift (set_slide_height prs sh) ;;
      prs <- for_enumerate (λ i pg prs,
               stdout_write (CR +:+ "Processing: Page " +:+ pretty (i + 1)%Z +:+ "/"
                             +:+ pretty (Z.of_nat (length pdf_doc))) ;;
               page_to_slide temp_dir dpi i pg prs) 0%Z pdf_doc prs ;;
      Presentation_save prs output_path ;;
      print CR ;;
      print ("Output file: " +:+ str_of_Path output_path) ;;
      print "Conversion completed!") ;;
    ret true.

Definition pdf_to_pptx_simple (pdf_path : Path) (output_path : option string)
    (dpi : option Z) : M bool :=
  pdf_to_pptx pdf_path output_path "4:3" None None "high" dpi "png".

(** ** main of pdf2pptx.py *)

(** The namespace [parser.parse_args()] returns.  [aspect], [quality] and
    [method] are kept as strings; argparse admits only the declared choices
    when the option is given. *)
Record Namespace : Type := MkNamespace {
  input_pdf : string;
  output : option string;
  aspect : string;
  width : option float;
  height : option float;
  quality : string;
  dpi : option Z;
  method : string;
  list_aspects : bool;
  simple : bool }.

Definition aspect_table : list string :=
  [ "Available aspect ratios:";
    "  4:3      - Standard 4:3 (10.00 x 7.50 inches)";
    "  16:9     - Widescreen 16:9 (13.33 x 7.50 inches)";
    "  16:10    - 16:10 (13.00 x 8.125 inches)";
    "  a4       - A4 paper size (11.69 x 8.27 inches)";
    "  letter   - Letter paper size (11.00 x 8.50 inches)";
    "  wide     - Alias for 16:9";
    "  standard - Alias for 4:3";
    "  square   - Square 1:1 (10.00 x 10.00 inches)";
    "  portrait - Portrait orientation (7.50 x 10.00 inches)";
    "  custom   - Custom dimensions (requires --width and --height)" ].

(** [for s in lines: print(s)]. *)
Fixpoint print_lines (lines : list string) : M unit :=
  match lines with
  | [] => ret tt
  | s :: rest => print s ;; print_lines rest
  end.

(** [if c: body] as a statement. *)
Definition when (c : bool) (body : M unit) : M unit :=
  if c then body else ret tt.

(** [x is None]. *)
Definition is_None {A} (x : option A) : bool :=
  match x with None => true | Some _ => false end.

(** [x <= 0] for an optional float: comparing [None] with a number raises. *)
Definition le_zero (x : option float) : outcome bool :=
  match x with
  | Some v => Return (v <=? 0)%float
  | None => Raise (Exception "TypeError" "'<=' not supported between instances of 'NoneType' and 'int'")
  end.

Definition main (args : Namespace) : M unit :=
  when (list_aspects args)
    (print_lines aspect_table ;;
     sys_exit 0) ;;
  when (bool_decide (aspect args = "custom"))
    (when (is_None (width args) || is_None (height args))
       (print "Error: Custom aspect ratio requires both --width and --height arguments." ;;
        sys_exit 1) ;;
     nonpositive <- lift (w_le <- le_zero (width args) ;;;
                          if w_le then Return true else le_zero (height args)) ;;
     when nonpositive
       (print "Error: Width and height must be positive numbers." ;;
        sys_exit 1)) ;;
  let pdf_path := Path_of_string (input_pdf args) in
  found <- Path_exists pdf_path ;;
  when (negb found)
    (print ("Error: Input file '" +:+ str_of_Path pdf_path +:+ "' not found.") ;;
     sys_exit 1) ;;
  success <- (if simple args then
                print "Running in simple mode (4:3, 300 DPI)..." ;;
                pdf_to_pptx_simple pdf_path (output args) (Some 300%Z)
              else
                pdf_to_pptx pdf_path (output args) (aspect args)
                  (width args) (height args) (quality args) (dpi args) (method args)) ;;
  sys_exit (if success then 0%Z else 1%Z).

(** The status the process ends with: the code given to [sys.exit], or 1
    when an exception reaches the top level. *)
Definition exit_status {A} (o : outcome A) : Z :=
  match o with
  | Return _ => 0%Z
  | Raise (SystemExit code) => code
  | Raise (Exception _ _) => 1%Z
  end.

(** ** pdf_to_pptx of main.py *)

Module main_py.

Definition pdf_to_pptx (pdf_path : Path) : M bool :=
  found <- Path_exists pdf_path ;;
  if negb found then
    print ("Error: File " +:+ str_of_Path pdf_path +:+ " not found.") ;;
    ret false
  else
    output_path <- lift (with_suffix pdf_path ".pptx") ;;
    with_TemporaryDirectory (λ temp_dir,
      print ("Processing: " +:+ name pdf_path) ;;
      pdf_doc <- fitz_open pdf_path ;;
      print ("PDF pages: " +:+ pretty (Z.of_nat (length pdf_doc))) ;;
      let prs := Presentation_new in
      prs <- lift (set_slide_width prs (Inches_int 10)) ;;
      sh <- lift (Inches 7.5%float) ;;
      prs <- lift (set_slide_height prs sh) ;;
      prs <- for_enumerate (λ i pg prs,
               stdout_write (CR +:+ "Processing: Page " +:+ pretty i +:+ "/"
                             +:+ pretty (Z.of_nat (length pdf_doc))) ;;
               page_to_slide temp_dir (Some 300%Z) i pg prs) 0%Z pdf_doc prs ;;
      Presentation_save prs output_path ;;
      print CR ;;
      print ("Output file: " +:+ str_of_Path output_path) ;;
      print "Conversion completed!") ;;
    ret true.

(** The [__main__] block of main.py, on [sys.argv].  [sys.argv[1]] is read
    only when the list has it: [or] does not evaluate its right operand
    when the length test holds, and the [else] branch is under both tests. *)
Definition main (argv : list string) : M unit :=
  if (length argv <? 2)%nat
     || bool_decide (default "" (argv !! 1%nat) ∈ ["help"; "-h"; "--help"])
  then
    print "Usage: python main.py filename.pdf" ;;
    sys_exit 1
  else
    success <- pdf_to_pptx (Path_of_string (default "" (argv !! 1%nat))) ;;
    sys_exit (if success then 0%Z else 1%Z).

End main_py.

(** ** The page helpers of pdf2pptx.py *)

(** [pix.save(path)]: MuPDF writes the raster as a PNG file that records
    the resolution the raster is tagged with.  The path is a string here and
    is resolved as [Path] resolves it; without the directory the file
    cannot be opened (the message is MuPDF's in outline). *)
Definition Pixmap_save (pix : pixmap) (path : string) : M unit := λ w,
  let p := Path_of_string path in
  let w' := log (EvWrite p) w in
  match fs w !! parent p with
  | Some d =>
      let img := Image (pix_width pix) (pix_height pix) (pix_samples pix) false
                   (Some (pix_xres pix)) in
      (Return tt,
       World (<[parent p := <[name p := PngFile img]> d]> (fs w')) (stdout w') (trace w'))
  | None =>
      (Raise (Exception "RuntimeError"
                ("cannot open file '" +:+ path +:+ "': No such file or directory")), w')
  end.

(** [float(z)] where Python converts an [int] operand: an [int] beyond the
    binary64 range raises. *)
Definition float_of_int_checked (z : Z) : outcome float :=
  match Prim2SF (float_of_int z) with
  | S754_infinity _ => Raise (Exception "OverflowError" "int too large to convert to float")
  | _ => Return (float_of_int z)
  end.

(** The pixels per metre Pillow writes into the PNG for [dpi=(dpi, dpi)]:
    [int(dpi / 0.0254 + 0.5)], packed as an unsigned 32-bit integer
    ([struct.error] outside that range). *)
Definition png_pixels_per_metre (dpi : option Z) : outcome Z :=
  match dpi with
  | None =>
      Raise (Exception "TypeError" "unsupported operand type(s) for /: 'NoneType' and 'float'")
  | Some d =>
      x <- float_of_int_checked d ;;;
      ppm <- int_of_float (x / 0.0254 + 0.5)%float ;;;
      if (ppm <? 0)%Z then Raise (Exception "error" "argument out of range")
      else if (4294967295 <? ppm)%Z
      then Raise (Exception "error" "'I' format requires 0 <= number <= 4294967295")
      else Return ppm
  end.

(** [img.save(path, "PNG", dpi=(dpi, dpi), optimize=True, compress_level=6)].
    Pillow opens the file for writing first, which empties a file that is
    there, and then encodes; when the encoder fails (the resolution cannot
    be written) it closes the file and removes it if the call created it, so
    that a file that was there before is left as a stump. *)
Definition Image_save_dpi (img : image) (path : string) (dpi : option Z) : M unit := λ w,
  let p := Path_of_string path in
  let w' := log (EvWrite p) w in
  let put f d := World (<[parent p := <[name p := f]> d]> (fs w')) (stdout w') (trace w') in
  match fs w !! parent p with
  | Some d =>
      match png_pixels_per_metre dpi with
      | Return _ =>
          (Return tt,
           put (PngFile (Image (img_width img) (img_height img) (img_samples img)
                           (img_sharpened img) dpi)) d)
      | Raise e => (Raise e, if bool_decide (is_Some (d !! name p)) then put OtherFile d else w')
      end
  | None => (Raise (no_such_file path), w')
  end.

Definition convert_pdf_to_png (pdf_path : Path) (output_dir : string)
    (page_num : Z) (dpi : option Z) : M (option string) :=
  let output_path := os_path_join output_dir ("slide-" +:+ pretty page_num +:+ ".png") in
  try_except
    (pdf_doc <- fitz_open pdf_path ;;
     pg <- lift (doc_getitem pdf_doc page_num) ;;
     pix <- page_get_pixmap pg dpi ;;
     Pixmap_save pix output_path ;;
     ret (Some output_path))
    (λ cls e,
     print ("Error converting page " +:+ pretty (page_num + 1)%Z +:+ " to PNG: " +:+ e) ;;
     ret None).

Definition convert_pdf_to_high_quality_png (pdf_path : Path) (output_dir : string)
    (page_num : Z) (dpi : option Z) (use_pil_enhancement : bool) : M (option string) :=
  let output_path := os_path_join output_dir ("slide-" +:+ pretty page_num +:+ ".png") in
  try_except
    (pdf_doc <- fitz_open pdf_path ;;
     pg <- lift (doc_getitem pdf_doc page_num) ;;
     pix <- page_get_pixmap pg dpi ;;
     (if use_pil_enhancement then
        let img := Image_frombytes pix in
        let img := Image_sharpen img in
        Image_save_dpi img output_path dpi
      else
        Pixmap_save pix output_path) ;;
     ret (Some output_path))
    (λ cls e,
     print ("Error converting page " +:+ pretty (page_num + 1)%Z +:+ " to PNG: " +:+ e) ;;
     ret None).

(** * Specification-side definitions *)

(** ** Relations between the world before and the world after *)

Definition keeps {A} (R : world -> world -> Prop) (m : M A) : Prop :=
  ∀ w, R w (m w).2.

(** A relation between the world before and the world after that is closed
    under sequencing and holds across the three ways a primitive call
    changes the world: logging an event [can_log] admits, writing to
    standard output, and storing a file [can_write] admits. *)
Class WorldRel (R : world -> world -> Prop)
    (can_log : event -> Prop) (can_write : Path -> file -> Prop) : Prop := {
  rel_refl : ∀ w, R w w;
  rel_trans : ∀ a b c, R a b -> R b c -> R a c;
  rel_log : ∀ ev w, can_log ev -> R w (log ev w);
  rel_say : ∀ s w, R w (World (fs w) (stdout w ++ [s]) (trace w));
  rel_put : ∀ p f w d, can_log (EvWrite p) -> can_write p f ->
    fs w !! parent p = Some d ->
    R w (World (<[parent p := <[name p := f]> d]> (fs w)) (stdout w)
           (trace w ++ [EvWrite p])) }.

(** What a computation adds to the trace: events that all satisfy [Pev]. *)
Definition extends_trace (Pev : event -> Prop) (w1 w2 : world) : Prop :=
  ∃ evs : list event, trace w2 = trace w1 ++ evs ∧ Forall Pev evs.

(** An event that is not a rendering, or is one at [d]. *)
Definition renders_at (d : option Z) (ev : event) : Prop :=
  ∀ x, ev = EvRender x -> x = d.

(** The resolutions of the renderings in a trace, in order. *)
Definition rendered_dpis (tr : list event) : list (option Z) :=
  omap (λ ev, match ev with EvRender x => Some x | _ => None end) tr.

(** The DPI [main] has the pages rendered at. *)
Definition rendering_dpi (args : Namespace) : option Z :=
  if simple args then Some 300%Z
  else match dpi args with
       | Some d => Some d
       | None => quality_settings !! quality args
       end.

(** Nothing changes outside the directory [d], except that a presentation
    may appear at [out]; no directory appears or disappears. *)
Definition fs_frame (d : string) (out : Path) (w1 w2 : world) : Prop :=
  dom (fs w2) = dom (fs w1)
  ∧ ∀ p, parent p ≠ d ->
      lookup_file w2 p = lookup_file w1 p
      ∨ (p = out ∧ ∃ prs, lookup_file w2 p = Some (PptxFile prs)).

Definition scratch_write (d : string) (out : Path) (p : Path) (f : file) : Prop :=
  parent p = d ∨ (p = out ∧ ∃ prs, f = PptxFile prs).

(** An event of the block under [with tempfile.TemporaryDirectory()]: no
    temporary directory is created or removed there, and what is written
    goes into the scratch directory [d] or is the output [out]. *)
Definition scratch_event (d : string) (out : Path) (ev : event) : Prop :=
  match ev with
  | EvMkdtemp _ | EvRmtree _ => False
  | EvWrite p => parent p = d ∨ p = out
  | _ => True
  end.

(** What the block under [with] may do. *)
Definition scratch_block (d : string) (out : Path) (w1 w2 : world) : Prop :=
  fs_frame d out w1 w2 ∧ extends_trace (scratch_event d out) w1 w2.

(** The life of the scratch directory in a call that starts in [w], ends in
    [w'] and has [out] as its output path.  After the calls [before], the
    directory [d] is created, under a name no directory had; until it is
    removed nothing is written outside it but the output; its removal is
    the last call; and afterwards the directories are the ones there were
    before (so [d] is gone) and every file is as it was, except that a
    presentation may be at [out]. *)
Definition scratch_lifecycle (d : string) (out : Path) (before : list event)
    (w w' : world) : Prop :=
  (d ∉ dom (fs w))
  ∧ (∃ evs : list event,
       trace w' = trace w ++ before ++ [EvMkdtemp d] ++ evs ++ [EvRmtree d]
       ∧ Forall (scratch_event d out) evs)
  ∧ dom (fs w') = dom (fs w)
  ∧ ∀ p, lookup_file w' p = lookup_file w p
         ∨ (p = out ∧ ∃ prs, lookup_file w' p = Some (PptxFile prs)).

(** The ways [--aspect custom] can come with unusable dimensions: one is
    missing, or one is not above zero. *)
Definition custom_dimensions_invalid (args : Namespace) : Prop :=
  width args = None ∨ height args = None
  ∨ (∃ v, width args = Some v ∧ (v <=? 0)%float = true)
  ∨ (∃ v, height args = Some v ∧ (v <=? 0)%float = true).

(** The custom dimensions [main] lets through: both given and neither at
    or below zero. *)
Definition custom_dimensions_pass (args : Namespace) : Prop :=
  ∃ w h, width args = Some w ∧ height args = Some h
         ∧ (w <=? 0)%float = false ∧ (h <=? 0)%float = false.

(** [main]'s validation lets these arguments through. *)
Definition validation_passes (args : Namespace) : Prop :=
  aspect args ≠ "custom" ∨ custom_dimensions_pass args.

(** ** What a successful conversion produces *)

(** The image [page_to_slide] makes of a page, when every step succeeds:
    the raster resized to height 1024 and the width [resized_width] gives. *)
Definition page_image (dpi : option Z) (pg : page) : option image :=
  match get_pixmap pg dpi with
  | Rendered pix =>
      match resized_width (Image_frombytes pix) with
      | Return nw =>
          if (1 <=? nw)%Z then Some (Image nw target_height (pix_samples pix) false None)
          else None
      | Raise _ => None
      end
  | RenderError _ _ => None
  end.

(** The width as the specification words it: the raster's width scaled by
    1024 over its height, rounded to the nearest integer (halves up). *)
Definition rounded_width (width height : Z) : Z :=
  (2 * width * 1024 + height) / (2 * height).

(** The slide a page becomes on a canvas of [sw] by [sh] EMU: one picture,
    at the origin, as wide and as high as the canvas. *)
Definition full_bleed (sw sh : Z) (img : image) : slide :=
  Slide [Picture img 0 0 sw sh].

(** The output path of a conversion (pdf2pptx.py lines 154-157). *)
Definition resolved_output (pdf_path : Path) (output_path : option string) : outcome Path :=
  if truthy_str output_path then Return (Path_of_string (default "" output_path))
  else with_suffix pdf_path ".pptx".

(** The canvas in EMU, when both extents convert and are admitted. *)
Definition canvas (width_inches height_inches : float) : option (Z * Z) :=
  match Inches width_inches, Inches height_inches with
  | Return sw, Return sh =>
      if valid_slide_extent sw && valid_slide_extent sh then Some (sw, sh) else None
  | _, _ => None
  end.

(** The scratch file of page [i]. *)
Definition scratch_png (temp_dir : string) (i : Z) : Path :=
  Path_join temp_dir ("slide-" +:+ pretty i +:+ ".png").

(** ** What a conversion prints, calls and raises *)

(** The exception [page_to_slide] ends with on a page, if any: the
    rasteriser's, the division's when the raster has no height, [int]'s, or
    the resize's. *)
Definition page_error (dpi : option Z) (pg : page) : option exn :=
  match get_pixmap pg dpi with
  | RenderError cls msg => Some (Exception cls msg)
  | Rendered pix =>
      match resized_width (Image_frombytes pix) with
      | Raise e => Some e
      | Return nw =>
          match Image_resize (Image_frombytes pix) nw target_height with
          | Raise e => Some e
          | Return _ => None
          end
      end
  end.

(** Lines 183-185 of pdf2pptx.py on their own: the new presentation with
    its canvas set, or the exception of the first step that fails. *)
Definition canvas_setup (width_inches height_inches : float) : outcome presentation :=
  sw <- Inches width_inches ;;;
  prs <- set_slide_width Presentation_new sw ;;;
  sh <- Inches height_inches ;;;
  set_slide_height prs sh.

(** The external calls one page costs when it becomes a slide. *)
Definition page_events (temp_dir : string) (dpi : option Z) (i : Z) : list event :=
  [ EvRender dpi; EvWrite (scratch_png temp_dir i); EvRead (scratch_png temp_dir i) ].

(** The progress line of pdf2pptx.py for the page at index [i] of [n]:
    pages are counted from 1. *)
Definition progress_line (n : nat) (i : Z) : string :=
  CR +:+ "Processing: Page " +:+ pretty (i + 1)%Z +:+ "/" +:+ pretty (Z.of_nat n).

(** The progress line of main.py: the index itself is printed. *)
Definition progress_line_main_py (n : nat) (i : Z) : string :=
  CR +:+ "Processing: Page " +:+ pretty i +:+ "/" +:+ pretty (Z.of_nat n).

(** The two lines a conversion prints before the first page. *)
Definition opening_lines (pdf_path : Path) (n : nat) : list string :=
  [ ("Processing: " +:+ name pdf_path) +:+ LF;
    ("PDF pages: " +:+ pretty (Z.of_nat n)) +:+ LF ].

(** The three lines it prints after the presentation is saved. *)
Definition closing_lines (out : Path) : list string :=
  [ CR +:+ LF; ("Output file: " +:+ str_of_Path out) +:+ LF;
    "Conversion completed!" +:+ LF ].


(** ** Sample documents *)

(** A page of [wpt] by [hpt] points that renders at every resolution; the
    pixel dimensions scale linearly with the DPI (72 when none is given),
    and the rasteriser tags its rasters with 96. *)
Definition vector_page (wpt hpt id : Z) : page :=
  Page (λ dpi, let d := default 72%Z dpi in
               Rendered (Pixmap (wpt * d / 72) (hpt * d / 72) [id] 96)).

(** A page the rasteriser cannot render. *)
Definition broken_page : page :=
  Page (λ _, RenderError "RuntimeError" "cannot render page").

Definition report_pdf : list page :=
  [ vector_page 612 792 1; vector_page 792 612 2 ].

(** Five pages, the one at index 2 broken. *)
Definition deck_pdf : list page :=
  [ vector_page 612 792 1; vector_page 612 792 2; broken_page;
    vector_page 612 792 4; vector_page 612 792 5 ].

(** A directory [docs] holding the two documents; nothing printed, nothing
    called yet. *)
Definition sample_world : world :=
  World {[ "docs" := {[ "report.pdf" := Document report_pdf;
                        "deck.pdf" := Document deck_pdf ]} ]} [] [].

(** A page whose raster has no height. *)
Definition flat_page : page := Page (λ _, Rendered (Pixmap 100 0 [9%Z] 96)).

(** A page that renders, at every resolution, to a raster 3 pixels wide and
    14400 high. *)
Definition thin_page : page := Page (λ _, Rendered (Pixmap 3 14400 [7%Z] 96)).

(** A page whose raster is 7 pixels wide and 4096 high. *)
Definition narrow_page : page := Page (λ _, Rendered (Pixmap 7 4096 [8%Z] 96)).

(** A directory [docs] holding a document of two pages, the second thin. *)
Definition thin_world : world :=
  World {[ "docs" := {[ "thin.pdf" := Document [vector_page 612 792 1; thin_page] ]} ]} [] [].

(** [pdf2pptx.py docs/<name>] with every option at its default. *)
Definition default_args (input : string) : Namespace :=
  MkNamespace input None "4:3" None None "high" None "auto" false false.

(** * Lemmas *)

(** ** Steps that keep a relation *)

Section Keeps.
Context {R : world -> world -> Prop} {can_log : event -> Prop}
        {can_write : Path -> file -> Prop} `{!WorldRel R can_log can_write}.

Lemma keeps_ret {A} (a : A) : keeps R (ret a).
Proof. intros w. apply rel_refl. Qed.

Lemma keeps_raise {A} (e : exn) : keeps R (@raise A e).
Proof. intros w. apply rel_refl. Qed.

Lemma keeps_lift {A} (o : outcome A) : keeps R (lift o).
Proof. intros w. apply rel_refl. Qed.

Lemma keeps_bind {A B} (m : M A) (k : A -> M B) :
  keeps R m -> (∀ a, keeps R (k a)) -> keeps R (bind m k).
Proof.
  intros Hm Hk w. unfold bind. specialize (Hm w).
  destruct (m w) as [[a|e] w1]; cbn in *; [|done].
  eapply rel_trans; [exact Hm | apply Hk].
Qed.

Lemma keeps_try_except {A} (body : M A) (handler : string -> string -> M A) :
  keeps R body -> (∀ cls msg, keeps R (handler cls msg)) -> keeps R (try_except body handler).
Proof.
  intros Hb Hh w. unfold try_except. specialize (Hb w).
  destruct (body w) as [[a|[cls msg|code]] w1]; cbn in *; try done.
  eapply rel_trans; [exact Hb | apply Hh].
Qed.

Lemma keeps_when (c : bool) (body : M unit) : keeps R body -> keeps R (when c body).
Proof. intros Hb. destruct c; [exact Hb | apply keeps_ret]. Qed.

Lemma keeps_for_enumerate {A St} (body : Z -> A -> St -> M St) (l : list A) :
  (∀ i x s, keeps R (body i x s)) -> ∀ i s, keeps R (for_enumerate body i l s).
Proof.
  intros Hb. induction l as [|x l IH]; intros i s; cbn.
  - apply keeps_ret.
  - apply keeps_bind; [apply Hb | intros s'; apply IH].
Qed.

Lemma keeps_stdout_write s : keeps R (stdout_write s).
Proof. intros w. apply rel_say. Qed.

Lemma keeps_print s : keeps R (print s).
Proof. apply keeps_stdout_write. Qed.

Lemma keeps_Path_exists p : can_log (EvStat p) -> keeps R (Path_exists p).
Proof. intros Hc w. by apply rel_log. Qed.

Lemma keeps_fitz_open p : can_log (EvOpen p) -> keeps R (fitz_open p).
Proof.
  intros Hc w. unfold fitz_open. destruct (lookup_file w p) as [[]|]; by apply rel_log.
Qed.

Lemma keeps_read_image p : can_log (EvRead p) -> keeps R (read_image p).
Proof.
  intros Hc w. unfold read_image. destruct (lookup_file w p) as [[]|]; by apply rel_log.
Qed.

Lemma keeps_page_get_pixmap pg dpi :
  can_log (EvRender dpi) -> keeps R (page_get_pixmap pg dpi).
Proof. intros Hc w. by apply rel_log. Qed.

Lemma keeps_write_file p f :
  can_log (EvWrite p) -> can_write p f -> keeps R (write_file p f).
Proof.
  intros Hl Hc w. unfold write_file.
  destruct (fs w !! parent p) as [d|] eqn:Hd; cbn; [by apply rel_put | by apply rel_log].
Qed.

Lemma keeps_add_picture prs i p l t wd ht :
  can_log (EvRead p) -> keeps R (add_picture prs i p l t wd ht).
Proof.
  intros Hc. unfold add_picture.
  apply keeps_bind; [by apply keeps_read_image | intros; apply keeps_ret].
Qed.

Lemma keeps_page_to_slide temp_dir dpi i pg prs :
  can_log (EvRender dpi) ->
  (∀ n, can_log (EvWrite (Path_join temp_dir n)) ∧ can_log (EvRead (Path_join temp_dir n))) ->
  (∀ n img, can_write (Path_join temp_dir n) (PngFile img)) ->
  keeps R (page_to_slide temp_dir dpi i pg prs).
Proof.
  intros Hr Hl Hw. unfold page_to_slide.
  apply keeps_bind; [by apply keeps_page_get_pixmap | intros pix].
  apply keeps_bind; [apply keeps_lift | intros nw].
  apply keeps_bind; [apply keeps_lift | intros img].
  apply keeps_bind; [apply keeps_write_file; [apply Hl | apply Hw] | intros _].
  cbn. apply keeps_add_picture, Hl.
Qed.

(** The block of [pdf_to_pptx] under [with]: everything it logs and
    writes is a stat-free mix of opening the input, rendering, scratch
    traffic and the final save. *)
Lemma keeps_conversion_loop temp_dir dpi (progress : Z -> string) pages i prs :
  can_log (EvRender dpi) ->
  (∀ n, can_log (EvWrite (Path_join temp_dir n)) ∧ can_log (EvRead (Path_join temp_dir n))) ->
  (∀ n img, can_write (Path_join temp_dir n) (PngFile img)) ->
  keeps R (for_enumerate (λ i pg prs,
           stdout_write (progress i) ;; page_to_slide temp_dir dpi i pg prs) i pages prs).
Proof.
  intros Hr Hl Hw. apply keeps_for_enumerate. intros j pg prs'.
  apply keeps_bind; [apply keeps_stdout_write | intros _].
  by apply keeps_page_to_slide.
Qed.
End Keeps.

(** ** What a computation adds to the trace *)

Section ExtendsTrace.
Variable Pev : event -> Prop.

#[global] Instance extends_trace_rel : WorldRel (extends_trace Pev) Pev (λ _ _, True).
Proof.
  split.
  - intros w. exists []. split; [by rewrite app_nil_r | constructor].
  - intros a b c (e1 & H1 & F1) (e2 & H2 & F2). exists (e1 ++ e2). split.
    + by rewrite H2, H1, app_assoc.
    + by apply Forall_app.
  - intros ev w H. exists [ev]. split; [done | by repeat constructor].
  - intros s w. exists []. split; [by rewrite app_nil_r | constructor].
  - intros p f w d H _ _. exists [EvWrite p]. split; [done | by repeat constructor].
Qed.

Lemma extends_trace_with_TemporaryDirectory {A} (body : string -> M A) :
  (∀ d, Pev (EvMkdtemp d) ∧ Pev (EvRmtree d)) ->
  (∀ d, keeps (extends_trace Pev) (body d)) ->
  keeps (extends_trace Pev) (with_TemporaryDirectory body).
Proof.
  intros Hd Hb w. unfold with_TemporaryDirectory.
  set (d := mkdtemp_name w).
  set (w1 := World _ _ _).
  specialize (Hb d w1). destruct (body d w1) as [r w2]. cbn in *.
  destruct Hb as (evs & Ht & Hf).
  exists (EvMkdtemp d :: evs ++ [EvRmtree d]). split.
  - unfold rmtree. cbn. rewrite Ht. subst w1. cbn. by rewrite <- !app_assoc.
  - constructor; [apply Hd|]. apply Forall_app. split; [done|].
    repeat constructor. apply Hd.
Qed.
End ExtendsTrace.

Ltac keeps_step :=
  lazymatch goal with
  | |- keeps _ (bind _ _) => apply keeps_bind; [| intros ?]
  | |- keeps _ (ret _) => apply keeps_ret
  | |- keeps _ (raise _) => apply keeps_raise
  | |- keeps _ (sys_exit _) => apply keeps_raise
  | |- keeps _ (lift _) => apply keeps_lift
  | |- keeps _ (print _) => apply keeps_print
  | |- keeps _ (stdout_write _) => apply keeps_stdout_write
  | |- keeps _ (Path_exists _) => apply keeps_Path_exists
  | |- keeps _ (fitz_open _) => apply keeps_fitz_open
  | |- keeps _ (write_file _ _) => apply keeps_write_file
  | |- keeps _ (Presentation_save _ _) => apply keeps_write_file
  | |- keeps _ (for_enumerate _ _ _ _) => apply keeps_conversion_loop
  | |- keeps _ (when _ _) => apply keeps_when
  | |- keeps _ (if ?c then _ else _) => destruct c
  end.
Ltac keeps_steps := repeat keeps_step.

(** ** The resolution the pages are rendered at *)

Lemma pdf_to_pptx_renders_at pdf_path output_path aspect_ratio cw ch quality dpi method :
  keeps (extends_trace (renders_at (effective_dpi quality dpi)))
    (pdf_to_pptx pdf_path output_path aspect_ratio cw ch quality dpi method).
Proof.
  unfold pdf_to_pptx.
  apply keeps_bind; [apply keeps_Path_exists; by intros x [=] | intros found].
  destruct found; cbn [negb]; [| keeps_steps].
  apply keeps_bind; [destruct (truthy_str output_path); keeps_steps | intros out].
  destruct (get_slide_dimensions aspect_ratio cw ch) as [wi hi].
  apply keeps_bind; [| intros _; apply keeps_ret].
  apply extends_trace_with_TemporaryDirectory; [by split; intros x [=] | intros d].
  keeps_steps; try done; try (by intros x [=]); try (by intros n; split; intros x [=]).
Qed.

Lemma effective_dpi_None quality : effective_dpi quality None = quality_settings !! quality.
Proof.
  unfold effective_dpi. rewrite bool_decide_eq_true_2 by done. cbn [andb].
  destruct (quality_settings !! quality) as [v|] eqn:Hq.
  - rewrite bool_decide_eq_true_2 by eauto. reflexivity.
  - rewrite bool_decide_eq_false_2; [done|]. by intros [v Hv].
Qed.

Lemma effective_dpi_Some quality d : effective_dpi quality (Some d) = Some d.
Proof. unfold effective_dpi. by rewrite bool_decide_eq_false_2. Qed.

Lemma main_renders_at args :
  keeps (extends_trace (renders_at (rendering_dpi args))) (main args).
Proof.
  unfold main.
  apply keeps_bind; [apply keeps_when; keeps_steps | intros _].
  - induction aspect_table; cbn [print_lines]; keeps_steps. done.
  - apply keeps_bind; [apply keeps_when; keeps_steps | intros _].
    apply keeps_bind; [apply keeps_Path_exists; by intros x [=] | intros found].
    apply keeps_bind; [keeps_steps | intros _].
    apply keeps_bind; [| intros; apply keeps_raise].
    unfold rendering_dpi. destruct (simple args).
    + apply keeps_bind; [keeps_steps | intros _].
      unfold pdf_to_pptx_simple.
      rewrite <- (effective_dpi_Some "high" 300). apply pdf_to_pptx_renders_at.
    + destruct (dpi args) as [d|] eqn:Hd.
      * rewrite <- (effective_dpi_Some (quality args) d). apply pdf_to_pptx_renders_at.
      * rewrite <- effective_dpi_None. apply pdf_to_pptx_renders_at.
Qed.

(** ** The scratch directory *)

Lemma lookup_file_put (w : world) (p q : Path) (f : file) (d : gmap string file) so tr :
  fs w !! parent p = Some d ->
  lookup_file (World (<[parent p := <[name p := f]> d]> (fs w)) so tr) q
  = if bool_decide (q = p) then Some f else lookup_file w q.
Proof.
  intros Hd. unfold lookup_file. cbn.
  destruct (decide (parent q = parent p)) as [Hp|Hp].
  - rewrite Hp, lookup_insert_eq, Hd. cbn.
    destruct (decide (name q = name p)) as [Hn|Hn].
    + rewrite Hn, lookup_insert_eq. rewrite bool_decide_eq_true_2; [done|].
      destruct p, q; cbn in *; congruence.
    + rewrite lookup_insert_ne by done. rewrite bool_decide_eq_false_2; [done|].
      intros ->. done.
  - rewrite lookup_insert_ne by done. rewrite bool_decide_eq_false_2; [done|].
    intros ->. done.
Qed.

#[global] Instance fs_frame_rel d out :
  WorldRel (fs_frame d out) (λ _, True) (scratch_write d out).
Proof.
  split.
  - intros w. split; [done | by left].
  - intros a b c [Hd1 H1] [Hd2 H2]. split; [congruence|].
    intros p Hp. destruct (H2 p Hp) as [E2|[-> [prs E2]]]; [| right; eauto].
    destruct (H1 p Hp) as [E1|[-> [prs E1]]].
    + left. congruence.
    + right. split; [done|]. exists prs. congruence.
  - intros ev w _. split; [done | by left].
  - intros s w. split; [done | by left].
  - intros p f w dd _ Hw Hdd. split.
    + cbn. rewrite dom_insert_L. apply elem_of_dom_2 in Hdd.
      apply subseteq_union_1_L, singleton_subseteq_l, Hdd.
    + intros q Hq. rewrite (lookup_file_put w p q f dd) by done.
      case_bool_decide as Hqp; [| by left]. subst q.
      destruct Hw as [Hw|[-> [prs ->]]]; [done|]. right. eauto.
Qed.

(** Conjunction of two world relations. *)
#[global] Instance and_rel R1 cl1 cw1 R2 cl2 cw2 :
  WorldRel R1 cl1 cw1 -> WorldRel R2 cl2 cw2 ->
  WorldRel (λ a b, R1 a b ∧ R2 a b) (λ e, cl1 e ∧ cl2 e) (λ p f, cw1 p f ∧ cw2 p f).
Proof.
  intros H1 H2. split.
  - intros w. split; apply rel_refl.
  - intros a b c [A1 A2] [B1 B2]. split; eapply rel_trans; eauto.
  - intros ev w [C1 C2]. split; by apply rel_log.
  - intros s w. split; apply rel_say.
  - intros p f w d [L1 L2] [C1 C2] Hd. split; by apply rel_put.
Qed.

#[global] Instance scratch_block_rel d out :
  WorldRel (scratch_block d out) (λ e, True ∧ scratch_event d out e)
    (λ p f, scratch_write d out p f ∧ True).
Proof. unfold scratch_block. apply and_rel; apply _. Qed.

Lemma with_TemporaryDirectory_lifecycle {A} (body : string -> M A) (out : Path) (w : world) :
  (∀ d, keeps (scratch_block d out) (body d)) ->
  scratch_lifecycle (mkdtemp_name w) out [] w (with_TemporaryDirectory body w).2.
Proof.
  intros Hb. unfold with_TemporaryDirectory.
  set (d := mkdtemp_name w).
  assert (Hfresh : d ∉ dom (fs w)) by (unfold d, mkdtemp_name; apply is_fresh).
  set (w1 := World _ _ _).
  specialize (Hb d w1). destruct (body d w1) as [r w2]. cbn in *.
  destruct Hb as [[Hdom Hfr] (evs & Ht & Hf)].
  unfold scratch_lifecycle, rmtree. cbn. split; [done |]. split; [| split].
  - exists evs. split; [| done]. rewrite Ht. subst w1. cbn. by rewrite <- !app_assoc.
  - rewrite dom_delete_L, Hdom. subst w1. cbn [fs]. rewrite dom_insert_L.
    rewrite difference_union_distr_l_L, difference_diag_L, (left_id_L ∅ (∪)).
    apply difference_disjoint_L, disjoint_singleton_r, Hfresh.
  - intros p. unfold lookup_file at 1 3. cbn [fs].
    destruct (decide (parent p = d)) as [Hp|Hp].
    + left. rewrite Hp, lookup_delete_eq. apply not_elem_of_dom in Hfresh.
      unfold lookup_file. by rewrite Hp, Hfresh.
    + rewrite lookup_delete_ne by done.
      destruct (Hfr p Hp) as [E|[-> [prs E]]].
      * left. unfold lookup_file in E. rewrite E. subst w1. cbn.
        by rewrite lookup_insert_ne.
      * right. split; [done |]. exists prs. exact E.
Qed.

Lemma scratch_lifecycle_after (ev : event) (d : string) (out : Path) (w w' : world) :
  scratch_lifecycle d out [] (log ev w) w' -> scratch_lifecycle d out [ev] w w'.
Proof.
  intros (Hfresh & (evs & Htr & Hev) & Hdom & Hfiles).
  split; [done |]. split; [| done].
  exists evs. split; [| done]. rewrite Htr. cbn. by rewrite <- app_assoc.
Qed.

Ltac scratch_side :=
  repeat (intros; split); try done; cbn [scratch_event Path_join parent];
  unfold scratch_write;
  first [ done | by left | by right | by right; eauto ].

Lemma pdf_to_pptx_lifecycle pdf_path output_path aspect_ratio cw ch quality dpi method
    (w : world) (out : Path) :
  is_Some (lookup_file w pdf_path) ->
  resolved_output pdf_path output_path = Return out ->
  scratch_lifecycle (mkdtemp_name w) out [EvStat pdf_path] w
    (pdf_to_pptx pdf_path output_path aspect_ratio cw ch quality dpi method w).2.
Proof.
  intros Hfound Hout.
  unfold pdf_to_pptx. unfold bind at 1. cbn [Path_exists].
  rewrite bool_decide_eq_true_2 by done. cbn [negb].
  apply scratch_lifecycle_after.
  set (w0 := log (EvStat pdf_path) w).
  change (mkdtemp_name w) with (mkdtemp_name w0).
  unfold bind at 1.
  assert (Hres : (if truthy_str output_path
                  then ret (Path_of_string (default "" output_path))
                  else lift (with_suffix pdf_path ".pptx")) w0 = (Return out, w0)).
  { unfold resolved_output in Hout. destruct (truthy_str output_path).
    - by injection Hout as <-.
    - unfold lift. by rewrite Hout. }
  rewrite Hres. clear Hres.
  destruct (get_slide_dimensions aspect_ratio cw ch) as [wi hi].
  unfold bind at 1.
  match goal with |- context [with_TemporaryDirectory ?b w0] =>
    pose proof (with_TemporaryDirectory_lifecycle b out w0) as H;
    destruct (with_TemporaryDirectory b w0) as [[r|e] w1] end;
    (apply H; intros d; keeps_steps; scratch_side).
Qed.

(** ** Pages that become slides *)

(** The resolution tag plays no part in the image built from a raster. *)
Lemma Image_frombytes_tagged (pix : pixmap) (dpi : option Z) :
  Image_frombytes (if truthy_int dpi then Pixmap_set_dpi pix (default 0%Z dpi) else pix)
  = Image_frombytes pix.
Proof. by destruct (truthy_int dpi). Qed.

Lemma page_to_slide_ok temp_dir dpi i pg prs w files img :
  fs w !! temp_dir = Some files ->
  page_image dpi pg = Some img ->
  page_to_slide temp_dir dpi i pg prs w =
    (Return (Presentation (slide_width prs) (slide_height prs)
               (slides prs ++ [full_bleed (slide_width prs) (slide_height prs) img])),
     World (<[temp_dir := <[name (scratch_png temp_dir i) := PngFile img]> files]> (fs w))
           (stdout w)
           (trace w ++ [EvRender dpi; EvWrite (scratch_png temp_dir i);
                        EvRead (scratch_png temp_dir i)])).
Proof.
  intros Hd Himg. unfold page_image in Himg.
  unfold page_to_slide, page_get_pixmap. unfold bind at 1.
  destruct (get_pixmap pg dpi) as [pix|]; [|done].
  rewrite !Image_frombytes_tagged.
  unfold bind at 1, lift at 1.
  destruct (resized_width (Image_frombytes pix)) as [nw|]; [|done].
  destruct (1 <=? nw)%Z eqn:Hnw; [|done]. injection Himg as <-.
  unfold bind at 1, lift at 1, Image_resize.
  replace (nw <? 1)%Z with false by lia. cbn [orb].
  replace (target_height <? 1)%Z with false by done.
  fold (scratch_png temp_dir i).
  unfold bind at 1, write_file. cbn [parent Path_join scratch_png log fs].
  rewrite Hd. cbn [add_slide]. 
  unfold add_picture, bind, read_image, lookup_file. cbn [fs parent name scratch_png Path_join log stdout trace].
  rewrite lookup_insert_eq. cbn [mbind option_bind]. rewrite lookup_insert_eq.
  cbn [ret slide_width slide_height slides Image_frombytes img_samples img_sharpened img_dpi].
  replace (length (slides prs)) with (length (slides prs) + 0)%nat by lia.
  rewrite alter_app_r. unfold ret, log. cbn [fs stdout trace].
  rewrite <- !app_assoc. reflexivity.
Qed.

Lemma for_enumerate_app {A St} (body : Z -> A -> St -> M St) (l1 l2 : list A) i s w :
  for_enumerate body i (l1 ++ l2) s w =
    match for_enumerate body i l1 s w with
    | (Return s', w') => for_enumerate body (i + Z.of_nat (length l1))%Z l2 s' w'
    | (Raise e, w') => (Raise e, w')
    end.
Proof.
  revert i s w. induction l1 as [|x l1 IH]; intros i s w; cbn [for_enumerate app length].
  - unfold ret. by rewrite Z.add_0_r.
  - unfold bind. destruct (body i x s w) as [[s'|e] w']; [|done].
    rewrite IH. replace (i + 1 + Z.of_nat (length l1))%Z with (i + Z.of_nat (S (length l1)))%Z by lia.
    done.
Qed.

(** The loop over pages that all make it to a slide. *)
Lemma conversion_loop_ok temp_dir dpi (progress : Z -> string) pages imgs :
  Forall2 (λ pg img, page_image dpi pg = Some img) pages imgs ->
  ∀ i prs w files, fs w !! temp_dir = Some files ->
  ∃ files' tr,
    for_enumerate (λ i pg prs,
        stdout_write (progress i) ;; page_to_slide temp_dir dpi i pg prs) i pages prs w =
      (Return (Presentation (slide_width prs) (slide_height prs)
                 (slides prs ++ (full_bleed (slide_width prs) (slide_height prs) <$> imgs))),
       World (<[temp_dir := files']> (fs w))
             (stdout w ++ (progress <$> seqZ i (Z.of_nat (length pages))))
             tr).
Proof.
  induction 1 as [|pg img pages imgs Hpg _ IH]; intros i prs w files Hd.
  - exists files, (trace w). cbn. unfold ret. rewrite !app_nil_r.
    rewrite insert_id by done. by destruct prs, w.
  - cbn [for_enumerate]. unfold bind at 1. unfold bind at 1. cbn [stdout_write].
    erewrite page_to_slide_ok; [| exact Hd | exact Hpg].
    cbn [fs stdout trace].
    edestruct IH as (files' & tr & ->).
    { cbn [fs]. apply lookup_insert_eq. }
    exists files', tr. cbn [slide_width slide_height slides fs stdout trace].
    rewrite insert_insert_eq. rewrite <- !app_assoc. cbn [length].
    rewrite (seqZ_cons i) by lia. cbn [fmap list_fmap app].
    replace (Z.succ i) with (i + 1)%Z by lia.
    replace (Z.pred (Z.of_nat (S (length pages)))) with (Z.of_nat (length pages)) by lia.
    reflexivity.
Qed.

Lemma lookup_file_fresh_dir (w : world) (p : Path) (d : string) files so tr :
  d ∉ dom (fs w) -> is_Some (fs w !! parent p) ->
  lookup_file (World (<[d := files]> (fs w)) so tr) p = lookup_file w p.
Proof.
  intros Hd [x Hx]. unfold lookup_file. cbn [fs].
  rewrite lookup_insert_ne; [done|]. intros ->. by apply not_elem_of_dom in Hd; congruence.
Qed.

Lemma lookup_file_parent (w : world) (p : Path) f :
  lookup_file w p = Some f -> is_Some (fs w !! parent p).
Proof. unfold lookup_file. destruct (fs w !! parent p); [eauto | done]. Qed.

Lemma canvas_Some wi hi sw sh :
  canvas wi hi = Some (sw, sh) ->
  Inches wi = Return sw ∧ Inches hi = Return sh
  ∧ valid_slide_extent sw = true ∧ valid_slide_extent sh = true.
Proof.
  unfold canvas. destruct (Inches wi) as [a|]; [|done]. destruct (Inches hi) as [b|]; [|done].
  destruct (valid_slide_extent a) eqn:Ha; [|done].
  destruct (valid_slide_extent b) eqn:Hb; [|done].
  cbn. intros [= <- <-]. done.
Qed.

Lemma pdf_to_pptx_ok pdf_path output_path aspect_ratio cw ch quality dpi method
    (w : world) (pages : list page) (imgs : list image) (out : Path) (sw sh : Z) :
  lookup_file w pdf_path = Some (Document pages) ->
  resolved_output pdf_path output_path = Return out ->
  is_Some (fs w !! parent out) ->
  canvas (get_slide_dimensions aspect_ratio cw ch).1
         (get_slide_dimensions aspect_ratio cw ch).2 = Some (sw, sh) ->
  Forall2 (λ pg img, page_image (effective_dpi quality dpi) pg = Some img) pages imgs ->
  ∃ w', pdf_to_pptx pdf_path output_path aspect_ratio cw ch quality dpi method w
        = (Return true, w')
     ∧ lookup_file w' out = Some (PptxFile (Presentation sw sh (full_bleed sw sh <$> imgs))).
Proof.
  intros Hdoc Hout Hparent Hcanvas Hpages.
  apply canvas_Some in Hcanvas as (Hsw & Hsh & Hvw & Hvh).
  unfold pdf_to_pptx. unfold bind at 1. cbn [Path_exists].
  rewrite bool_decide_eq_true_2 by (rewrite Hdoc; eauto). cbn [negb].
  unfold bind at 1.
  assert (Hres : ∀ w0, (if truthy_str output_path
              then ret (Path_of_string (default "" output_path))
              else lift (with_suffix pdf_path ".pptx")) w0 = (Return out, w0)).
  { intros w0. unfold resolved_output in Hout. destruct (truthy_str output_path).
    - unfold ret. congruence.
    - unfold lift. congruence. }
  rewrite Hres. clear Hres.
  destruct (get_slide_dimensions aspect_ratio cw ch) as [wi hi]. cbn [fst snd] in *.
  unfold bind at 1. unfold with_TemporaryDirectory.
  set (w0 := log (EvStat pdf_path) w).
  set (d := mkdtemp_name w0).
  assert (Hfresh : d ∉ dom (fs w)) by (unfold d, mkdtemp_name; apply is_fresh).
  (* inside the block *)
  unfold bind at 1. cbn [print stdout_write fs stdout trace].
  unfold bind at 1. unfold fitz_open.
  rewrite lookup_file_fresh_dir; [| exact Hfresh | by eapply lookup_file_parent].
  change (lookup_file w0 pdf_path) with (lookup_file w pdf_path). rewrite Hdoc.
  unfold bind at 1. cbn [print stdout_write fs stdout trace log].
  unfold bind at 1, lift at 1. rewrite Hsw.
  unfold bind at 1, lift at 1, set_slide_width. rewrite Hvw.
  unfold bind at 1, lift at 1. rewrite Hsh.
  unfold bind at 1, lift at 1, set_slide_height. rewrite Hvh.
  unfold bind at 1.
  edestruct (conversion_loop_ok d (effective_dpi quality dpi)) as (files' & tr & ->);
    [exact Hpages | cbn [fs]; apply lookup_insert_eq |].
  cbn [slide_width slide_height slides Presentation_new app fs stdout trace].
  unfold bind at 1. unfold Presentation_save, write_file.
  cbn [fs stdout trace log].
  destruct Hparent as [dd Hdd].
  assert (Hne : parent out ≠ d) by (intros E; apply not_elem_of_dom in Hfresh; congruence).
  change (fs w0) with (fs w).
  rewrite insert_insert_eq, lookup_insert_ne, Hdd by done.
  unfold bind, print, stdout_write, ret, rmtree. cbn [fs stdout trace].
  eexists. split; [reflexivity|].
  unfold lookup_file. cbn [fs].
  rewrite lookup_delete_ne, lookup_insert_eq by done. cbn [mbind option_bind].
  by rewrite lookup_insert_eq.
Qed.


(** ** The page helpers on a page that fails to render *)

Lemma doc_getitem_nat (doc : list page) (k : nat) (pg : page) :
  doc !! k = Some pg -> doc_getitem doc (Z.of_nat k) = Return pg.
Proof.
  intros Hk. unfold doc_getitem. apply lookup_lt_Some in Hk as Hlt.
  replace (Z.of_nat (length doc) <=? Z.of_nat k)%Z with false by lia.
  rewrite Z.mod_small by lia. by rewrite Nat2Z.id, Hk.
Qed.

Lemma convert_pdf_to_png_page_failure pdf_path output_dir (k : nat) dpi
    (w : world) (pages : list page) (pg : page) (cls msg : string) :
  lookup_file w pdf_path = Some (Document pages) ->
  pages !! k = Some pg ->
  get_pixmap pg dpi = RenderError cls msg ->
  convert_pdf_to_png pdf_path output_dir (Z.of_nat k) dpi w =
    (Return None,
     World (fs w)
       (stdout w ++ [("Error converting page " +:+ pretty (Z.of_nat k + 1)%Z
                      +:+ " to PNG: " +:+ msg) +:+ LF])
       (trace w ++ [EvOpen pdf_path; EvRender dpi])).
Proof.
  intros Hdoc Hk Hbad. unfold convert_pdf_to_png, try_except.
  unfold bind at 1, fitz_open. rewrite Hdoc.
  unfold bind at 1, lift at 1. rewrite (doc_getitem_nat _ _ _ Hk).
  unfold bind at 1, page_get_pixmap. rewrite Hbad.
  unfold bind, print, stdout_write, ret, log. cbn [fs stdout trace].
  by rewrite <- app_assoc.
Qed.

(** ** main.py *)

Lemma with_suffix_parent (p out : Path) (suffix : string) :
  with_suffix p suffix = Return out -> parent out = parent p.
Proof.
  unfold with_suffix. destruct (bool_decide (name p = "")); [done|].
  destruct (split_last "."%char (name p)) as [[[|c stem] [|c' ext]]|]; by intros [= <-].
Qed.

Lemma main_py_pdf_to_pptx_ok (pdf_path : Path) (w : world)
    (pages : list page) (imgs : list image) (out : Path) :
  lookup_file w pdf_path = Some (Document pages) ->
  with_suffix pdf_path ".pptx" = Return out ->
  Forall2 (λ pg img, page_image (Some 300%Z) pg = Some img) pages imgs ->
  ∃ w', main_py.pdf_to_pptx pdf_path w = (Return true, w')
     ∧ lookup_file w' out =
         Some (PptxFile (Presentation 9144000 6858000
                           (full_bleed 9144000 6858000 <$> imgs))).
Proof.
  intros Hdoc Hout Hpages.
  assert (Hparent : is_Some (fs w !! parent out)).
  { rewrite (with_suffix_parent _ _ _ Hout). by eapply lookup_file_parent. }
  unfold main_py.pdf_to_pptx. unfold bind at 1. cbn [Path_exists].
  rewrite bool_decide_eq_true_2 by (rewrite Hdoc; eauto). cbn [negb].
  unfold bind at 1, lift at 1. rewrite Hout.
  unfold bind at 1. unfold with_TemporaryDirectory.
  set (w0 := log (EvStat pdf_path) w).
  set (d := mkdtemp_name w0).
  assert (Hfresh : d ∉ dom (fs w)) by (unfold d, mkdtemp_name; apply is_fresh).
  unfold bind at 1. cbn [print stdout_write fs stdout trace].
  unfold bind at 1. unfold fitz_open.
  rewrite lookup_file_fresh_dir; [| exact Hfresh | by eapply lookup_file_parent].
  change (lookup_file w0 pdf_path) with (lookup_file w pdf_path). rewrite Hdoc.
  unfold bind at 1. cbn [print stdout_write fs stdout trace log].
  unfold bind at 1, lift at 1, set_slide_width.
  replace (valid_slide_extent (Inches_int 10)) with true by (vm_compute; reflexivity).
  unfold bind at 1, lift at 1.
  replace (Inches 7.5) with (Return 6858000%Z) by (vm_compute; reflexivity).
  unfold bind at 1, lift at 1, set_slide_height.
  replace (valid_slide_extent 6858000) with true by (vm_compute; reflexivity).
  unfold bind at 1.
  edestruct (conversion_loop_ok d (Some 300%Z)) as (files' & tr & ->);
    [exact Hpages | cbn [fs]; apply lookup_insert_eq |].
  cbn [slide_width slide_height slides Presentation_new app fs stdout trace].
  unfold bind at 1. unfold Presentation_save, write_file.
  cbn [fs stdout trace log].
  destruct Hparent as [dd Hdd].
  assert (Hne : parent out ≠ d) by (intros E; apply not_elem_of_dom in Hfresh; congruence).
  change (fs w0) with (fs w).
  rewrite insert_insert_eq, lookup_insert_ne, Hdd by done.
  unfold bind, print, stdout_write, ret, rmtree. cbn [fs stdout trace].
  eexists. split; [reflexivity|].
  unfold lookup_file. cbn [fs].
  rewrite lookup_delete_ne, lookup_insert_eq by done. cbn [mbind option_bind].
  by rewrite lookup_insert_eq.
Qed.

Lemma main_py_pdf_to_pptx_lifecycle (pdf_path : Path) (w : world) (out : Path) :
  is_Some (lookup_file w pdf_path) ->
  with_suffix pdf_path ".pptx" = Return out ->
  scratch_lifecycle (mkdtemp_name w) out [EvStat pdf_path] w
    (main_py.pdf_to_pptx pdf_path w).2.
Proof.
  intros Hfound Hout.
  unfold main_py.pdf_to_pptx. unfold bind at 1. cbn [Path_exists].
  rewrite bool_decide_eq_true_2 by done. cbn [negb].
  apply scratch_lifecycle_after.
  set (w0 := log (EvStat pdf_path) w).
  change (mkdtemp_name w) with (mkdtemp_name w0).
  unfold bind at 1, lift at 1. rewrite Hout.
  unfold bind at 1.
  match goal with |- context [with_TemporaryDirectory ?b w0] =>
    pose proof (with_TemporaryDirectory_lifecycle b out w0) as H;
    destruct (with_TemporaryDirectory b w0) as [[r|e] w1] end;
    (apply H; intros d; keeps_steps; scratch_side).
Qed.

(** ** Whole runs of the page loop *)

Lemma page_image_no_error dpi pg img : page_image dpi pg = Some img -> page_error dpi pg = None.
Proof.
  unfold page_image, page_error, Image_resize.
  destruct (get_pixmap pg dpi) as [pix|]; [|done].
  destruct (resized_width (Image_frombytes pix)) as [nw|]; [|done].
  destruct (1 <=? nw)%Z eqn:Hnw; [|done]. intros _.
  replace (nw <? 1)%Z with false by lia. done.
Qed.

Lemma page_to_slide_raises temp_dir dpi i pg prs w e :
  page_error dpi pg = Some e ->
  page_to_slide temp_dir dpi i pg prs w = (Raise e, log (EvRender dpi) w).
Proof.
  unfold page_error, page_to_slide, page_get_pixmap. unfold bind at 1.
  destruct (get_pixmap pg dpi) as [pix|cls msg]; [| by intros [= <-]].
  rewrite !Image_frombytes_tagged.
  unfold bind at 1, lift at 1.
  destruct (resized_width (Image_frombytes pix)) as [nw|e']; [| by intros [= <-]].
  unfold bind at 1, lift at 1.
  destruct (Image_resize (Image_frombytes pix) nw target_height) as [img|e']; [done|].
  by intros [= <-].
Qed.

(** The loop over pages that all become slides, with everything it leaves. *)
Lemma conversion_loop_run temp_dir dpi (progress : Z -> string) pages imgs :
  Forall2 (λ pg img, page_image dpi pg = Some img) pages imgs ->
  ∀ i prs w files, fs w !! temp_dir = Some files ->
  ∃ files',
    for_enumerate (λ i pg prs,
        stdout_write (progress i) ;; page_to_slide temp_dir dpi i pg prs) i pages prs w =
      (Return (Presentation (slide_width prs) (slide_height prs)
                 (slides prs ++ (full_bleed (slide_width prs) (slide_height prs) <$> imgs))),
       World (<[temp_dir := files']> (fs w))
             (stdout w ++ (progress <$> seqZ i (Z.of_nat (length pages))))
             (trace w ++ concat (page_events temp_dir dpi <$> seqZ i (Z.of_nat (length pages))))).
Proof.
  induction 1 as [|pg img pages imgs Hpg _ IH]; intros i prs w files Hd.
  - exists files. cbn. unfold ret. rewrite !app_nil_r.
    rewrite insert_id by done. by destruct prs, w.
  - cbn [for_enumerate]. unfold bind at 1. unfold bind at 1. cbn [stdout_write].
    erewrite page_to_slide_ok; [| exact Hd | exact Hpg].
    cbn [fs stdout trace].
    edestruct IH as (files' & ->).
    { cbn [fs]. apply lookup_insert_eq. }
    exists files'. cbn [slide_width slide_height slides fs stdout trace].
    rewrite insert_insert_eq. rewrite <- !app_assoc. cbn [length].
    rewrite (seqZ_cons i) by lia. cbn [fmap list_fmap app concat].
    replace (Z.succ i) with (i + 1)%Z by lia.
    replace (Z.pred (Z.of_nat (S (length pages)))) with (Z.of_nat (length pages)) by lia.
    reflexivity.
Qed.

(** The loop up to the first page that does not become a slide: the pages
    before it are processed, its progress line is printed, it is rendered,
    and its exception leaves the loop; the pages after it are not touched. *)
Lemma conversion_loop_stops temp_dir dpi (progress : Z -> string) oks imgs bad rest e :
  Forall2 (λ pg img, page_image dpi pg = Some img) oks imgs ->
  page_error dpi bad = Some e ->
  ∀ i prs w files, fs w !! temp_dir = Some files ->
  ∃ files',
    for_enumerate (λ i pg prs,
        stdout_write (progress i) ;; page_to_slide temp_dir dpi i pg prs)
      i (oks ++ bad :: rest) prs w =
      (Raise e,
       World (<[temp_dir := files']> (fs w))
             (stdout w ++ (progress <$> seqZ i (Z.of_nat (length oks) + 1)))
             (trace w ++ concat (page_events temp_dir dpi <$> seqZ i (Z.of_nat (length oks)))
                     ++ [EvRender dpi])).
Proof.
  intros Hoks Hbad i prs w files Hd.
  rewrite for_enumerate_app.
  destruct (conversion_loop_run temp_dir dpi progress oks imgs Hoks i prs w files Hd)
    as (files' & ->).
  exists files'. cbn [for_enumerate]. unfold bind at 1. unfold bind at 1.
  cbn [stdout_write]. rewrite (page_to_slide_raises _ _ _ _ _ _ e Hbad).
  unfold log. cbn [fs stdout trace].
  rewrite seqZ_app by lia. rewrite fmap_app, <- !app_assoc.
  reflexivity.
Qed.

(** ** Whole runs of the conversion *)

Lemma resolved_output_run pdf_path output_path out (w0 : world) :
  resolved_output pdf_path output_path = Return out ->
  (if truthy_str output_path
   then ret (Path_of_string (default "" output_path))
   else lift (with_suffix pdf_path ".pptx")) w0 = (Return out, w0).
Proof.
  unfold resolved_output. destruct (truthy_str output_path).
  - unfold ret. congruence.
  - unfold lift. congruence.
Qed.

Lemma scratch_removed (d : string) (m : gmap string (gmap string file))
    (k : string) (x files : gmap string file) :
  m !! d = None -> k ≠ d ->
  delete d (<[k := x]> (<[d := files]> m)) = <[k := x]> m.
Proof.
  intros Hd Hk. rewrite delete_insert_ne by done. by rewrite delete_insert_id.
Qed.

(** A conversion that succeeds, with the world it leaves. *)
Lemma pdf_to_pptx_run pdf_path output_path aspect_ratio cw ch quality dpi method
    (w : world) (pages : list page) (imgs : list image) (out : Path) (sw sh : Z)
    (dd : gmap string file) :
  lookup_file w pdf_path = Some (Document pages) ->
  resolved_output pdf_path output_path = Return out ->
  fs w !! parent out = Some dd ->
  canvas (get_slide_dimensions aspect_ratio cw ch).1
         (get_slide_dimensions aspect_ratio cw ch).2 = Some (sw, sh) ->
  Forall2 (λ pg img, page_image (effective_dpi quality dpi) pg = Some img) pages imgs ->
  pdf_to_pptx pdf_path output_path aspect_ratio cw ch quality dpi method w =
    (Return true,
     World (<[parent out := <[name out := PptxFile (Presentation sw sh (full_bleed sw sh <$> imgs))]> dd]> (fs w))
       (stdout w ++ opening_lines pdf_path (length pages)
          ++ (progress_line (length pages) <$> seqZ 0 (Z.of_nat (length pages)))
          ++ closing_lines out)
       (trace w ++ [EvStat pdf_path; EvMkdtemp (mkdtemp_name w); EvOpen pdf_path]
          ++ concat (page_events (mkdtemp_name w) (effective_dpi quality dpi)
                       <$> seqZ 0 (Z.of_nat (length pages)))
          ++ [EvWrite out; EvRmtree (mkdtemp_name w)])).
Proof.
  intros Hdoc Hout Hdd Hcanvas Hpages.
  apply canvas_Some in Hcanvas as (Hsw & Hsh & Hvw & Hvh).
  unfold pdf_to_pptx. unfold bind at 1. cbn [Path_exists].
  rewrite bool_decide_eq_true_2 by (rewrite Hdoc; eauto). cbn [negb].
  unfold bind at 1. rewrite (resolved_output_run _ _ _ _ Hout).
  destruct (get_slide_dimensions aspect_ratio cw ch) as [wi hi]. cbn [fst snd] in *.
  unfold bind at 1. unfold with_TemporaryDirectory.
  set (w0 := log (EvStat pdf_path) w).
  change (mkdtemp_name w0) with (mkdtemp_name w).
  set (d := mkdtemp_name w).
  assert (Hfresh : d ∉ dom (fs w)) by (unfold d, mkdtemp_name; apply is_fresh).
  assert (Hnone : fs w !! d = None) by (by apply not_elem_of_dom).
  unfold bind at 1. cbn [print stdout_write fs stdout trace].
  unfold bind at 1. unfold fitz_open.
  rewrite lookup_file_fresh_dir; [| exact Hfresh | by eapply lookup_file_parent].
  change (lookup_file w0 pdf_path) with (lookup_file w pdf_path). rewrite Hdoc.
  unfold bind at 1. cbn [print stdout_write fs stdout trace log].
  unfold bind at 1, lift at 1. rewrite Hsw.
  unfold bind at 1, lift at 1, set_slide_width. rewrite Hvw.
  unfold bind at 1, lift at 1. rewrite Hsh.
  unfold bind at 1, lift at 1, set_slide_height. rewrite Hvh.
  unfold bind at 1.
  edestruct (conversion_loop_run d (effective_dpi quality dpi)) as (files' & ->);
    [exact Hpages | cbn [fs]; apply lookup_insert_eq |].
  cbn [slide_width slide_height slides Presentation_new app fs stdout trace].
  unfold bind at 1. unfold Presentation_save, write_file.
  cbn [fs stdout trace log].
  assert (Hne : parent out ≠ d) by congruence.
  change (fs w0) with (fs w).
  rewrite insert_insert_eq, lookup_insert_ne, Hdd by done.
  unfold bind, print, stdout_write, ret, rmtree. cbn [fs stdout trace].
  rewrite scratch_removed by done.
  unfold w0, log, opening_lines, closing_lines, progress_line. cbn [fs stdout trace].
  rewrite <- !app_assoc. reflexivity.
Qed.

(** From the call to the first statement under [with], for an input that
    exists and an output path that resolves. *)
Ltac enter_block Hdoc Hout w0 d Hfresh Hnone :=
  unfold pdf_to_pptx; unfold bind at 1; cbn [Path_exists];
  rewrite bool_decide_eq_true_2 by (rewrite Hdoc; eauto); cbn [negb];
  unfold bind at 1; rewrite (resolved_output_run _ _ _ _ Hout);
  destruct (get_slide_dimensions _ _ _) as [wi hi]; cbn [fst snd] in *;
  unfold bind at 1; unfold with_TemporaryDirectory;
  match goal with |- context [log (EvStat ?p) ?w] =>
    set (w0 := log (EvStat p) w);
    change (mkdtemp_name w0) with (mkdtemp_name w);
    set (d := mkdtemp_name w);
    assert (Hfresh : d ∉ dom (fs w)) by (unfold d, mkdtemp_name; apply is_fresh);
    assert (Hnone : fs w !! d = None) by (by apply not_elem_of_dom);
    unfold bind at 1; cbn [print stdout_write fs stdout trace];
    unfold bind at 1; unfold fitz_open;
    rewrite lookup_file_fresh_dir; [| exact Hfresh | by eapply lookup_file_parent];
    change (lookup_file w0 p) with (lookup_file w p); rewrite Hdoc;
    unfold bind at 1; cbn [print stdout_write fs stdout trace log];
    change (fs w0) with (fs w)
  end.

Ltac set_canvas Hsw Hvw Hsh Hvh :=
  unfold bind at 1, lift at 1; rewrite Hsw;
  unfold bind at 1, lift at 1, set_slide_width; rewrite Hvw;
  unfold bind at 1, lift at 1; rewrite Hsh;
  unfold bind at 1, lift at 1, set_slide_height; rewrite Hvh.

(** A conversion stopped by the first page that does not become a slide. *)
Lemma pdf_to_pptx_stops pdf_path output_path aspect_ratio cw ch quality dpi method
    (w : world) (oks rest : list page) (bad : page) (imgs : list image)
    (out : Path) (sw sh : Z) (e : exn) :
  lookup_file w pdf_path = Some (Document (oks ++ bad :: rest)) ->
  resolved_output pdf_path output_path = Return out ->
  canvas (get_slide_dimensions aspect_ratio cw ch).1
         (get_slide_dimensions aspect_ratio cw ch).2 = Some (sw, sh) ->
  Forall2 (λ pg img, page_image (effective_dpi quality dpi) pg = Some img) oks imgs ->
  page_error (effective_dpi quality dpi) bad = Some e ->
  pdf_to_pptx pdf_path output_path aspect_ratio cw ch quality dpi method w =
    (Raise e,
     World (fs w)
       (stdout w ++ opening_lines pdf_path (length (oks ++ bad :: rest))
          ++ (progress_line (length (oks ++ bad :: rest))
                <$> seqZ 0 (Z.of_nat (length oks) + 1)))
       (trace w ++ [EvStat pdf_path; EvMkdtemp (mkdtemp_name w); EvOpen pdf_path]
          ++ concat (page_events (mkdtemp_name w) (effective_dpi quality dpi)
                       <$> seqZ 0 (Z.of_nat (length oks)))
          ++ [EvRender (effective_dpi quality dpi); EvRmtree (mkdtemp_name w)])).
Proof.
  intros Hdoc Hout Hcanvas Hoks Hbad.
  apply canvas_Some in Hcanvas as (Hsw & Hsh & Hvw & Hvh).
  enter_block Hdoc Hout w0 d Hfresh Hnone.
  set_canvas Hsw Hvw Hsh Hvh.
  unfold bind at 1.
  edestruct (conversion_loop_stops d (effective_dpi quality dpi)) as (files' & ->);
    [exact Hoks | exact Hbad | cbn [fs]; apply lookup_insert_eq |].
  unfold rmtree. cbn [fs stdout trace].
  rewrite insert_insert_eq, delete_insert_id by done.
  unfold w0, log, opening_lines, progress_line. cbn [fs stdout trace].
  rewrite <- !app_assoc. reflexivity.
Qed.


(** A conversion whose canvas cannot be set: nothing is rendered. *)
Lemma pdf_to_pptx_canvas_fails pdf_path output_path aspect_ratio cw ch quality dpi method
    (w : world) (pages : list page) (out : Path) (e : exn) :
  lookup_file w pdf_path = Some (Document pages) ->
  resolved_output pdf_path output_path = Return out ->
  canvas_setup (get_slide_dimensions aspect_ratio cw ch).1
               (get_slide_dimensions aspect_ratio cw ch).2 = Raise e ->
  pdf_to_pptx pdf_path output_path aspect_ratio cw ch quality dpi method w =
    (Raise e,
     World (fs w)
       (stdout w ++ opening_lines pdf_path (length pages))
       (trace w ++ [EvStat pdf_path; EvMkdtemp (mkdtemp_name w); EvOpen pdf_path;
                    EvRmtree (mkdtemp_name w)])).
Proof.
  intros Hdoc Hout Hsetup.
  enter_block Hdoc Hout w0 d Hfresh Hnone.
  unfold canvas_setup, obind in Hsetup.
  assert (Hend : ∀ so tr,
    rmtree d (World (<[d:=∅]> (fs w)) (stdout w0 ++ so) ((trace w0 ++ [EvMkdtemp d]) ++ tr))
    = World (fs w) (stdout w ++ so) (trace w ++ [EvStat pdf_path; EvMkdtemp d] ++ tr ++ [EvRmtree d])).
  { intros so tr. unfold rmtree, w0, log. cbn [fs stdout trace].
    rewrite delete_insert_id by done. by rewrite <- !app_assoc. }
  unfold bind at 1, lift at 1.
  destruct (Inches wi) as [sw|e1]; [| injection Hsetup as <-; rewrite <- app_assoc, Hend; reflexivity].
  unfold bind at 1, lift at 1.
  destruct (set_slide_width Presentation_new sw) as [prs1|e1];
    [| injection Hsetup as <-; rewrite <- app_assoc, Hend; reflexivity].
  unfold bind at 1, lift at 1.
  destruct (Inches hi) as [sh|e1]; [| injection Hsetup as <-; rewrite <- app_assoc, Hend; reflexivity].
  unfold bind at 1, lift at 1. rewrite Hsetup.
  rewrite <- app_assoc, Hend. reflexivity.
Qed.

(** The same for [pdf_to_pptx] of main.py. *)
Lemma main_py_pdf_to_pptx_run (pdf_path : Path) (w : world)
    (pages : list page) (imgs : list image) (out : Path) (dd : gmap string file) :
  lookup_file w pdf_path = Some (Document pages) ->
  with_suffix pdf_path ".pptx" = Return out ->
  fs w !! parent out = Some dd ->
  Forall2 (λ pg img, page_image (Some 300%Z) pg = Some img) pages imgs ->
  main_py.pdf_to_pptx pdf_path w =
    (Return true,
     World (<[parent out := <[name out := PptxFile (Presentation 9144000 6858000
                                           (full_bleed 9144000 6858000 <$> imgs))]> dd]> (fs w))
       (stdout w ++ opening_lines pdf_path (length pages)
          ++ (progress_line_main_py (length pages) <$> seqZ 0 (Z.of_nat (length pages)))
          ++ closing_lines out)
       (trace w ++ [EvStat pdf_path; EvMkdtemp (mkdtemp_name w); EvOpen pdf_path]
          ++ concat (page_events (mkdtemp_name w) (Some 300%Z)
                       <$> seqZ 0 (Z.of_nat (length pages)))
          ++ [EvWrite out; EvRmtree (mkdtemp_name w)])).
Proof.
  intros Hdoc Hout Hdd Hpages.
  unfold main_py.pdf_to_pptx. unfold bind at 1. cbn [Path_exists].
  rewrite bool_decide_eq_true_2 by (rewrite Hdoc; eauto). cbn [negb].
  unfold bind at 1, lift at 1. rewrite Hout.
  unfold bind at 1. unfold with_TemporaryDirectory.
  set (w0 := log (EvStat pdf_path) w).
  change (mkdtemp_name w0) with (mkdtemp_name w).
  set (d := mkdtemp_name w).
  assert (Hfresh : d ∉ dom (fs w)) by (unfold d, mkdtemp_name; apply is_fresh).
  assert (Hnone : fs w !! d = None) by (by apply not_elem_of_dom).
  unfold bind at 1. cbn [print stdout_write fs stdout trace].
  unfold bind at 1. unfold fitz_open.
  rewrite lookup_file_fresh_dir; [| exact Hfresh | by eapply lookup_file_parent].
  change (lookup_file w0 pdf_path) with (lookup_file w pdf_path). rewrite Hdoc.
  unfold bind at 1. cbn [print stdout_write fs stdout trace log].
  unfold bind at 1, lift at 1, set_slide_width.
  replace (valid_slide_extent (Inches_int 10)) with true by (vm_compute; reflexivity).
  unfold bind at 1, lift at 1.
  replace (Inches 7.5) with (Return 6858000%Z) by (vm_compute; reflexivity).
  unfold bind at 1, lift at 1, set_slide_height.
  replace (valid_slide_extent 6858000) with true by (vm_compute; reflexivity).
  unfold bind at 1.
  edestruct (conversion_loop_run d (Some 300%Z)) as (files' & ->);
    [exact Hpages | cbn [fs]; apply lookup_insert_eq |].
  cbn [slide_width slide_height slides Presentation_new app fs stdout trace].
  unfold bind at 1. unfold Presentation_save, write_file.
  cbn [fs stdout trace log].
  assert (Hne : parent out ≠ d) by congruence.
  change (fs w0) with (fs w).
  rewrite insert_insert_eq, lookup_insert_ne, Hdd by done.
  unfold bind, print, stdout_write, ret, rmtree. cbn [fs stdout trace].
  rewrite scratch_removed by done.
  unfold w0, log, opening_lines, closing_lines, progress_line_main_py.
  cbn [fs stdout trace]. rewrite <- !app_assoc. reflexivity.
Qed.

(** ** How [main] passes on to the conversion *)

Lemma main_validation_passes (args : Namespace) (k : unit -> M unit) (w : world) :
  validation_passes args ->
  bind (if bool_decide (aspect args = "custom") then
          bind (when (is_None (width args) || is_None (height args))
                  (print "Error: Custom aspect ratio requires both --width and --height arguments." ;;
                   sys_exit 1))
            (λ _, nonpositive <- lift (w_le <- le_zero (width args) ;;;
                                       if w_le then Return true else le_zero (height args)) ;;
                  when nonpositive
                    (print "Error: Width and height must be positive numbers." ;;
                     sys_exit 1))
        else ret tt) k w = k tt w.
Proof.
  intros [Hne | (wv & hv & Hw & Hh & Hwle & Hhle)].
  - by rewrite bool_decide_eq_false_2.
  - destruct (bool_decide (aspect args = "custom")); [| done].
    rewrite Hw, Hh. unfold bind, when, lift, obind, le_zero, is_None, ret.
    cbn [orb]. by rewrite Hwle, Hhle.
Qed.

Lemma main_run (args : Namespace) (w : world) :
  list_aspects args = false ->
  validation_passes args ->
  main args w =
    let pdf_path := Path_of_string (input_pdf args) in
    let w0 := log (EvStat pdf_path) w in
    if bool_decide (is_Some (lookup_file w pdf_path)) then
      let '(o, w') :=
        if simple args then
          (print "Running in simple mode (4:3, 300 DPI)..." ;;
           pdf_to_pptx_simple pdf_path (output args) (Some 300%Z)) w0
        else
          pdf_to_pptx pdf_path (output args) (aspect args) (width args) (height args)
            (quality args) (dpi args) (method args) w0 in
      match o with
      | Return success => (Raise (SystemExit (if success then 0 else 1)%Z), w')
      | Raise e => (Raise e, w')
      end
    else
      (Raise (SystemExit 1),
       World (fs w)
         (stdout w ++ [("Error: Input file '" +:+ str_of_Path pdf_path +:+ "' not found.") +:+ LF])
         (trace w ++ [EvStat pdf_path])).
Proof.
  intros Hl Hv. unfold main. rewrite Hl. unfold when at 1.
  unfold bind at 1. unfold ret at 1. unfold when at 1.
  rewrite (main_validation_passes args _ w Hv).
  cbv zeta. unfold bind at 1. cbn [Path_exists].
  destruct (bool_decide (is_Some (lookup_file w (Path_of_string (input_pdf args))))).
  - cbn [negb when]. unfold bind at 1, ret at 1. unfold bind at 1.
    destruct (simple args).
    + destruct ((print "Running in simple mode (4:3, 300 DPI)...";;
                 pdf_to_pptx_simple _ _ _) _) as [[b|e] w']; reflexivity.
    + destruct (pdf_to_pptx _ _ _ _ _ _ _ _ _) as [[b|e] w']; reflexivity.
  - reflexivity.
Qed.

(** ** An input that is not there *)

Lemma pdf_to_pptx_missing pdf_path output_path aspect_ratio cw ch quality dpi method
    (w : world) :
  lookup_file w pdf_path = None ->
  let w' := World (fs w)
              (stdout w ++ [("Error: File " +:+ str_of_Path pdf_path +:+ " not found.") +:+ LF])
              (trace w ++ [EvStat pdf_path]) in
  pdf_to_pptx pdf_path output_path aspect_ratio cw ch quality dpi method w = (Return false, w')
  ∧ main_py.pdf_to_pptx pdf_path w = (Return false, w').
Proof.
  intros Hnone w'.
  split; [unfold pdf_to_pptx | unfold main_py.pdf_to_pptx];
    unfold bind at 1; cbn [Path_exists]; rewrite Hnone;
    (rewrite bool_decide_eq_false_2 by (by intros [x Hx])); reflexivity.
Qed.

(** * Properties of the program

    One section per claim of the specification, C1 to C10. *)

(** ** C1: a page that fails to render *)

(** C1, as the code has it: when the rasteriser raises on a page of the
    document (the pages before it having become slides), [pdf_to_pptx] does
    not catch the error.  It ends with that very exception; it has printed
    the progress lines up to that page's and no error line, has rendered
    the pages up to that one and none after it, has written no presentation
    and has removed the scratch directory, so that the file system is as it
    was.  Run from [main] (without [--simple]) the exception reaches the
    top level: the process ends with status 1.  Catching the error,
    printing a line that names the page by its 1-based number and returning
    [None] is what the stand-alone helper [convert_pdf_to_png] does, which
    the conversion does not call. *)
Theorem page_failure_aborts_conversion
    (args : Namespace) (output_dir : string) (w : world)
    (oks rest : list page) (bad : page) (imgs : list image) (out : Path) (sw sh : Z)
    (cls msg : string) :
  let pdf_path := Path_of_string (input_pdf args) in
  let at_dpi := effective_dpi (quality args) (dpi args) in
  let n := Z.of_nat (length (oks ++ bad :: rest)) in
  let k := Z.of_nat (length oks) in
  let d := mkdtemp_name w in
  let printed :=
    [ ("Processing: " +:+ name pdf_path) +:+ LF; ("PDF pages: " +:+ pretty n) +:+ LF ]
    ++ ((λ i, CR +:+ "Processing: Page " +:+ pretty (i + 1)%Z +:+ "/" +:+ pretty n)
          <$> seqZ 0 (k + 1)) in
  let called :=
    [EvMkdtemp d; EvOpen pdf_path] ++ concat (page_events d at_dpi <$> seqZ 0 k)
    ++ [EvRender at_dpi; EvRmtree d] in
  list_aspects args = false ->
  simple args = false ->
  validation_passes args ->
  lookup_file w pdf_path = Some (Document (oks ++ bad :: rest)) ->
  resolved_output pdf_path (output args) = Return out ->
  canvas (get_slide_dimensions (aspect args) (width args) (height args)).1
         (get_slide_dimensions (aspect args) (width args) (height args)).2 = Some (sw, sh) ->
  Forall2 (λ pg img, page_image at_dpi pg = Some img) oks imgs ->
  get_pixmap bad at_dpi = RenderError cls msg ->
  pdf_to_pptx pdf_path (output args) (aspect args) (width args) (height args)
    (quality args) (dpi args) (method args) w
  = (Raise (Exception cls msg),
     World (fs w) (stdout w ++ printed) (trace w ++ [EvStat pdf_path] ++ called))
  ∧ main args w
    = (Raise (Exception cls msg),
       World (fs w) (stdout w ++ printed)
         (trace w ++ [EvStat pdf_path; EvStat pdf_path] ++ called))
  ∧ exit_status (main args w).1 = 1%Z
  ∧ convert_pdf_to_png pdf_path output_dir k at_dpi w
    = (Return None,
       World (fs w)
         (stdout w ++ [("Error converting page " +:+ pretty (k + 1)%Z
                        +:+ " to PNG: " +:+ msg) +:+ LF])
         (trace w ++ [EvOpen pdf_path; EvRender at_dpi])).
Proof.
  intros pdf_path at_dpi n k d printed called Hl Hs Hv Hdoc Hout Hcanvas Hoks Hbad.
  assert (Herr : page_error at_dpi bad = Some (Exception cls msg)).
  { unfold page_error. by rewrite Hbad. }
  assert (Hmain : main args w
    = (Raise (Exception cls msg),
       World (fs w) (stdout w ++ printed)
         (trace w ++ [EvStat pdf_path; EvStat pdf_path] ++ called))).
  { rewrite (main_run args w Hl Hv). cbv zeta. fold pdf_path.
    rewrite bool_decide_eq_true_2 by (rewrite Hdoc; eauto). rewrite Hs.
    rewrite (pdf_to_pptx_stops _ _ _ _ _ _ _ (method args) _ oks rest bad imgs out sw sh
               (Exception cls msg)); [| exact Hdoc | exact Hout | exact Hcanvas
                                       | exact Hoks | exact Herr].
    unfold log, opening_lines, progress_line. cbn [fs stdout trace].
    change (mkdtemp_name (World (fs w) (stdout w) (trace w ++ [EvStat pdf_path])))
      with (mkdtemp_name w).
    subst printed called. cbn [app]. rewrite <- ?app_assoc. reflexivity. }
  split; [| split; [exact Hmain | split; [by rewrite Hmain |]]].
  - rewrite (pdf_to_pptx_stops _ _ _ _ _ _ _ (method args) _ oks rest bad imgs out sw sh
               (Exception cls msg) Hdoc Hout Hcanvas Hoks Herr).
    unfold opening_lines, progress_line. subst printed called. cbn [app].
    rewrite <- ?app_assoc. reflexivity.
  - subst k. apply (convert_pdf_to_png_page_failure _ _ (length oks) _ _ _ bad cls msg Hdoc);
      [by apply list_lookup_middle | exact Hbad].
Qed.

Lemma page_failure_aborts_conversion_witness :
  main (default_args "docs/deck.pdf") sample_world
  = (Raise (Exception "RuntimeError" "cannot render page"),
     World (fs sample_world)
       [ "Processing: deck.pdf" +:+ LF; "PDF pages: 5" +:+ LF;
         CR +:+ "Processing: Page 1/5"; CR +:+ "Processing: Page 2/5";
         CR +:+ "Processing: Page 3/5" ]
       [ EvStat (MkPath "docs" "deck.pdf"); EvStat (MkPath "docs" "deck.pdf");
         EvMkdtemp (mkdtemp_name sample_world); EvOpen (MkPath "docs" "deck.pdf");
         EvRender (Some 600%Z);
         EvWrite (MkPath (mkdtemp_name sample_world) "slide-0.png");
         EvRead (MkPath (mkdtemp_name sample_world) "slide-0.png");
         EvRender (Some 600%Z);
         EvWrite (MkPath (mkdtemp_name sample_world) "slide-1.png");
         EvRead (MkPath (mkdtemp_name sample_world) "slide-1.png");
         EvRender (Some 600%Z); EvRmtree (mkdtemp_name sample_world) ])
  ∧ stdout (convert_pdf_to_png (MkPath "docs" "deck.pdf") "docs" 2 (Some 600%Z)
              sample_world).2
    = ["Error converting page 3 to PNG: cannot render page" +:+ LF].
Proof.
  destruct (page_failure_aborts_conversion (default_args "docs/deck.pdf") "docs" sample_world
              [vector_page 612 792 1; vector_page 612 792 2]
              [vector_page 612 792 4; vector_page 612 792 5] broken_page
              [Image 791 1024 [1%Z] false None; Image 791 1024 [2%Z] false None]
              (MkPath "docs" "deck.pptx") 9144000%Z 6858000%Z
              "RuntimeError" "cannot render page")
    as (_ & Hmain & _ & Hhelper).
  - reflexivity.
  - reflexivity.
  - left. discriminate.
  - vm_compute. reflexivity.
  - vm_compute. reflexivity.
  - vm_compute. reflexivity.
  - repeat constructor.
  - reflexivity.
  - split.
    + rewrite Hmain. vm_compute. reflexivity.
    + change (Path_of_string (input_pdf (default_args "docs/deck.pdf")))
        with (MkPath "docs" "deck.pdf") in Hhelper.
      change (effective_dpi (quality (default_args "docs/deck.pdf"))
                (dpi (default_args "docs/deck.pdf"))) with (Some 600%Z) in Hhelper.
      change (Z.of_nat (length [vector_page 612 792 1; vector_page 612 792 2]))
        with 2%Z in Hhelper.
      rewrite Hhelper. vm_compute. reflexivity.
Defined.

(** C1 as stated fails: on the five-page document whose page at index 2
    cannot be rendered, the conversion ends with the rasteriser's
    exception instead of a success, the process exits with status 1, no
    presentation is written (let alone one of four slides), and what was
    printed ends with the progress line of page 3: no error line. *)
Lemma page_failure_is_not_skipped :
  deck_pdf !! 2%nat = Some broken_page
  ∧ (pdf_to_pptx (MkPath "docs" "deck.pdf") None "4:3" None None "high" (Some 300%Z) "png"
       sample_world).1 = Raise (Exception "RuntimeError" "cannot render page")
  ∧ exit_status (main (default_args "docs/deck.pdf") sample_world).1 = 1%Z
  ∧ lookup_file (main (default_args "docs/deck.pdf") sample_world).2
      (MkPath "docs" "deck.pptx") = None
  ∧ stdout (main (default_args "docs/deck.pdf") sample_world).2
    = [ "Processing: deck.pdf" +:+ LF; "PDF pages: 5" +:+ LF;
        CR +:+ "Processing: Page 1/5"; CR +:+ "Processing: Page 2/5";
        CR +:+ "Processing: Page 3/5" ].
Proof. repeat split; vm_compute; reflexivity. Qed.

(** ** C2: one full-bleed slide per page, in page order *)

(** C2, as the code has it: when the input document exists, the output
    directory exists, the canvas converts to EMU within the admitted range,
    and every page makes it to an image ([page_image]: it renders, and its
    raster can be resized), the conversion returns [True] and the file at the output path
    is a presentation on that canvas whose slides are, page by page and in
    page order, one picture at offset (0, 0) with the canvas width and
    height: as many slides as pages.  [pdf_to_pptx] of main.py does the same
    on its fixed canvas of 10 by 7.5 inches at 300 DPI. *)
Theorem slides_match_pages :
  (∀ pdf_path output_path aspect_ratio custom_width custom_height quality dpi method
     (w : world) (pages : list page) (imgs : list image) (out : Path) (sw sh : Z),
     lookup_file w pdf_path = Some (Document pages) ->
     resolved_output pdf_path output_path = Return out ->
     is_Some (fs w !! parent out) ->
     canvas (get_slide_dimensions aspect_ratio custom_width custom_height).1
            (get_slide_dimensions aspect_ratio custom_width custom_height).2 = Some (sw, sh) ->
     Forall2 (λ pg img, page_image (effective_dpi quality dpi) pg = Some img) pages imgs ->
     ∃ w', pdf_to_pptx pdf_path output_path aspect_ratio custom_width custom_height
             quality dpi method w = (Return true, w')
        ∧ lookup_file w' out
          = Some (PptxFile (Presentation sw sh (full_bleed sw sh <$> imgs)))
        ∧ length (full_bleed sw sh <$> imgs) = length pages)
  ∧ (∀ pdf_path (w : world) (pages : list page) (imgs : list image) (out : Path),
       lookup_file w pdf_path = Some (Document pages) ->
       with_suffix pdf_path ".pptx" = Return out ->
       Forall2 (λ pg img, page_image (Some 300%Z) pg = Some img) pages imgs ->
       ∃ w', main_py.pdf_to_pptx pdf_path w = (Return true, w')
          ∧ lookup_file w' out
            = Some (PptxFile (Presentation 9144000 6858000
                                (full_bleed 9144000 6858000 <$> imgs)))
          ∧ length (full_bleed 9144000 6858000 <$> imgs) = length pages).
Proof.
  split.
  - intros pdf_path output_path aspect_ratio cw ch q d m w pages imgs out sw sh
      Hdoc Hout Hparent Hcanvas Hpages.
    destruct (pdf_to_pptx_ok _ _ _ _ _ _ _ m _ _ _ _ _ _
                Hdoc Hout Hparent Hcanvas Hpages) as (w' & Hrun & Hfile).
    exists w'. repeat split; [done | done |].
    rewrite length_fmap. symmetry. by eapply Forall2_length.
  - intros pdf_path w pages imgs out Hdoc Hout Hpages.
    destruct (main_py_pdf_to_pptx_ok _ _ _ _ _ Hdoc Hout Hpages) as (w' & Hrun & Hfile).
    exists w'. repeat split; [done | done |].
    rewrite length_fmap. symmetry. by eapply Forall2_length.
Qed.

Lemma slides_match_pages_witness :
  (∃ w', pdf_to_pptx (MkPath "docs" "report.pdf") None "16:9" None None "low" None "png"
           sample_world = (Return true, w')
      ∧ lookup_file w' (MkPath "docs" "report.pptx")
        = Some (PptxFile (Presentation 12191695 6858000
                  [ full_bleed 12191695 6858000 (Image 791 1024 [1%Z] false None);
                    full_bleed 12191695 6858000 (Image 1325 1024 [2%Z] false None) ]))
      ∧ length [ full_bleed 12191695 6858000 (Image 791 1024 [1%Z] false None);
                 full_bleed 12191695 6858000 (Image 1325 1024 [2%Z] false None) ]
        = length report_pdf)
  ∧ (∃ w', main_py.pdf_to_pptx (MkPath "docs" "report.pdf") sample_world = (Return true, w')
        ∧ lookup_file w' (MkPath "docs" "report.pptx")
          = Some (PptxFile (Presentation 9144000 6858000
                    [ full_bleed 9144000 6858000 (Image 791 1024 [1%Z] false None);
                      full_bleed 9144000 6858000 (Image 1325 1024 [2%Z] false None) ]))
        ∧ length [ full_bleed 9144000 6858000 (Image 791 1024 [1%Z] false None);
                   full_bleed 9144000 6858000 (Image 1325 1024 [2%Z] false None) ]
          = length report_pdf).
Proof.
  split.
  - apply (proj1 slides_match_pages (MkPath "docs" "report.pdf") None "16:9" None None
             "low" None "png" sample_world report_pdf
             [Image 791 1024 [1%Z] false None; Image 1325 1024 [2%Z] false None]).
    + vm_compute. reflexivity.
    + vm_compute. reflexivity.
    + eexists. vm_compute. reflexivity.
    + vm_compute. reflexivity.
    + repeat constructor.
  - apply (proj2 slides_match_pages (MkPath "docs" "report.pdf") sample_world report_pdf
             [Image 791 1024 [1%Z] false None; Image 1325 1024 [2%Z] false None]).
    + vm_compute. reflexivity.
    + vm_compute. reflexivity.
    + repeat constructor.
Defined.

(** C2 as stated fails: that no page's rasterisation fails is not enough.
    In the two-page document whose second page renders to a raster of 3 by
    14400 pixels, every page rasterises, yet the resized width of that
    raster is [int(3 * (1024 / 14400))], which is 0, and the resize is
    refused: the conversion of either file ends with a [ValueError] and
    leaves no presentation, let alone one of two slides. *)
Lemma rasterised_page_can_still_fail :
  lookup_file thin_world (MkPath "docs" "thin.pdf")
    = Some (Document [vector_page 612 792 1; thin_page])
  ∧ Forall (λ pg, ∀ dpi, ∃ pix, get_pixmap pg dpi = Rendered pix)
      [vector_page 612 792 1; thin_page]
  ∧ resized_width (Image_frombytes (Pixmap 3 14400 [7%Z] 96)) = Return 0%Z
  ∧ (∃ msg, (pdf_to_pptx (MkPath "docs" "thin.pdf") None "4:3" None None "high" None "png"
               thin_world).1 = Raise (Exception "ValueError" msg))
  ∧ lookup_file (pdf_to_pptx (MkPath "docs" "thin.pdf") None "4:3" None None "high" None
                   "png" thin_world).2 (MkPath "docs" "thin.pptx") = None
  ∧ (∃ msg, (main_py.pdf_to_pptx (MkPath "docs" "thin.pdf") thin_world).1
            = Raise (Exception "ValueError" msg))
  ∧ lookup_file (main_py.pdf_to_pptx (MkPath "docs" "thin.pdf") thin_world).2
      (MkPath "docs" "thin.pptx") = None.
Proof.
  split; [vm_compute; reflexivity |].
  split; [repeat constructor; intros dpi; eexists; reflexivity |].
  split; [vm_compute; reflexivity |].
  split; [eexists; vm_compute; reflexivity |].
  split; [vm_compute; reflexivity |].
  split; [eexists; vm_compute; reflexivity |].
  vm_compute; reflexivity.
Qed.

(** ** C3: the aspect-ratio table *)

Lemma ratios_lookup_None (k : string) : k ∉ aspect_keywords -> ratios !! k = None.
Proof.
  intros Hk. apply not_elem_of_list_to_map_1. intros Hin. apply Hk.
  unfold aspect_keywords. cbn in Hin.
  rewrite !elem_of_cons in Hin. rewrite !elem_of_cons. tauto.
Qed.

Lemma not_custom (k : string) : k ∉ aspect_keywords -> k ≠ "custom".
Proof.
  intros Hk ->. apply Hk. unfold aspect_keywords. rewrite !elem_of_cons. tauto.
Qed.

(** C3, as the code has it: a keyword outside the enumerated set falls back,
    without an error, to the 4:3 default, which is 10.0 by 7.5 inches; a
    keyword of the table gets the table's pair whatever the custom
    arguments are; and [custom] with both dimensions truthy gets those. *)
Theorem get_slide_dimensions_resolves (k : string) (cw ch : option float) :
  (k ∉ aspect_keywords -> get_slide_dimensions k cw ch = (10.0, 7.5)%float)
  ∧ (∀ wh, (k, wh) ∈ ratios_items -> get_slide_dimensions k cw ch = wh)
  ∧ (∀ w h, k = "custom" -> cw = Some w -> ch = Some h ->
       (w =? 0)%float = false -> (h =? 0)%float = false ->
       get_slide_dimensions k cw ch = (w, h)).
Proof.
  split; [| split].
  - intros Hk. unfold get_slide_dimensions.
    rewrite (bool_decide_eq_false_2 _ (not_custom k Hk)). cbn [andb].
    by rewrite (ratios_lookup_None k Hk).
  - intros wh Hin. unfold ratios_items in Hin.
    repeat (apply elem_of_cons in Hin as [Hin|Hin];
            [injection Hin as -> ->; vm_compute; reflexivity|]).
    by apply elem_of_nil in Hin.
  - intros w h -> -> -> Hw Hh. unfold get_slide_dimensions, truthy_float.
    rewrite bool_decide_eq_true_2 by done. by rewrite Hw, Hh.
Qed.

Lemma get_slide_dimensions_resolves_witness :
  get_slide_dimensions "21:9" None None = (10.0, 7.5)%float
  ∧ get_slide_dimensions "16:9" (Some 3.0%float) None = (13.333, 7.5)%float
  ∧ get_slide_dimensions "custom" (Some 8.0%float) (Some 4.5%float) = (8.0, 4.5)%float.
Proof.
  split; [| split].
  - apply (proj1 (get_slide_dimensions_resolves "21:9" None None)).
    unfold aspect_keywords. rewrite !elem_of_cons, elem_of_nil.
    intros H. repeat (destruct H as [H|H]; [discriminate H|]). exact H.
  - apply (proj1 (proj2 (get_slide_dimensions_resolves "16:9" (Some 3.0%float) None))).
    unfold ratios_items. rewrite !elem_of_cons. right. left. reflexivity.
  - apply (proj2 (proj2 (get_slide_dimensions_resolves "custom"
                            (Some 8.0%float) (Some 4.5%float))));
      reflexivity.
Defined.

(** C3 as stated fails: the fallback for an unknown keyword is not 9.0 by
    7.5. *)
Lemma unknown_aspect_is_not_9_by_7_5 :
  ("21:9" ∉ aspect_keywords)
  ∧ get_slide_dimensions "21:9" None None = (10.0, 7.5)%float
  ∧ get_slide_dimensions "21:9" None None ≠ (9.0, 7.5)%float.
Proof.
  split; [| split].
  - unfold aspect_keywords. rewrite !elem_of_cons, elem_of_nil.
    intros H. repeat (destruct H as [H|H]; [discriminate H|]). exact H.
  - vm_compute. reflexivity.
  - intros H. apply (f_equal (λ p, (p.1 =? 9.0)%float)) in H. vm_compute in H.
    discriminate H.
Qed.

(** ** C4: the rendering resolution *)

(** C4, as the code has it: every page [main] has rendered is rendered
    at 300 DPI under [--simple], whatever [--quality] and [--dpi] say;
    without [--simple], at the explicit [--dpi] when one is given, and
    otherwise at the preset of the quality tier: low 150, medium 300,
    high 600, ultra 1200. *)
Theorem main_renders_at_resolved_dpi (args : Namespace) (w : world) :
  ∃ evs : list event, trace (main args w).2 = trace w ++ evs
    ∧ ∀ x, EvRender x ∈ evs ->
        (simple args = true -> x = Some 300%Z)
        ∧ (simple args = false -> ∀ d, dpi args = Some d -> x = Some d)
        ∧ (simple args = false -> dpi args = None ->
             (quality args = "low" -> x = Some 150%Z)
             ∧ (quality args = "medium" -> x = Some 300%Z)
             ∧ (quality args = "high" -> x = Some 600%Z)
             ∧ (quality args = "ultra" -> x = Some 1200%Z)).
Proof.
  destruct (main_renders_at args w) as (evs & Ht & Hf).
  exists evs. split; [done|]. intros x Hx.
  rewrite Forall_forall in Hf. specialize (Hf _ Hx x eq_refl).
  unfold rendering_dpi in Hf. subst x.
  split; [by intros -> | split].
  - by intros -> d ->.
  - intros -> ->. repeat split; by intros ->.
Qed.

Lemma main_renders_at_resolved_dpi_witness :
  trace (main (MkNamespace "docs/report.pdf" None "4:3" None None "low" None "auto"
                 false false) sample_world).2 !! 4%nat = Some (EvRender (Some 150%Z))
  ∧ trace (main (MkNamespace "docs/report.pdf" None "4:3" None None "low" (Some 72%Z) "auto"
                   false false) sample_world).2 !! 4%nat = Some (EvRender (Some 72%Z)).
Proof.
  split.
  - destruct (main_renders_at_resolved_dpi
                (MkNamespace "docs/report.pdf" None "4:3" None None "low" None "auto"
                   false false) sample_world) as (evs & Ht & Hev).
    destruct (trace (main _ sample_world).2 !! 4%nat) as [[| | | | | |x]|] eqn:Hx;
      try (vm_compute in Hx; discriminate Hx).
    assert (Hin : EvRender x ∈ evs).
    { rewrite Ht in Hx. cbn [trace sample_world app] in Hx. by eapply list_elem_of_lookup_2. }
    destruct (Hev x Hin) as (_ & _ & Hq).
    destruct (Hq eq_refl eq_refl) as (Hlow & _). by rewrite (Hlow eq_refl).
  - destruct (main_renders_at_resolved_dpi
                (MkNamespace "docs/report.pdf" None "4:3" None None "low" (Some 72%Z) "auto"
                   false false) sample_world) as (evs & Ht & Hev).
    destruct (trace (main _ sample_world).2 !! 4%nat) as [[| | | | | |x]|] eqn:Hx;
      try (vm_compute in Hx; discriminate Hx).
    assert (Hin : EvRender x ∈ evs).
    { rewrite Ht in Hx. cbn [trace sample_world app] in Hx. by eapply list_elem_of_lookup_2. }
    destruct (Hev x Hin) as (_ & Hd & _).
    by rewrite (Hd eq_refl 72%Z eq_refl).
Defined.

(** C4 as stated fails under [--simple]: with quality [low] and no explicit
    DPI the pages are rendered at 300, not 150; and an explicit DPI of 72
    does not override anything, the pages are still rendered at 300. *)
Lemma simple_mode_renders_at_300 :
  rendered_dpis
    (trace (main (MkNamespace "docs/report.pdf" None "4:3" None None "low" None "auto"
                    false true) sample_world).2) = [Some 300%Z; Some 300%Z]
  ∧ rendered_dpis
      (trace (main (MkNamespace "docs/report.pdf" None "4:3" None None "high" (Some 72%Z)
                      "auto" false true) sample_world).2) = [Some 300%Z; Some 300%Z].
Proof. split; vm_compute; reflexivity. Qed.

(** ** C5: unusable custom dimensions *)

(** C5, as the code has it: without [--list-aspects], [--aspect custom]
    with a missing width or height, or with one that is not above zero,
    makes [main] print one of its two error messages and exit with status
    1 before anything else happens: no call reaches the file system, so no
    output file is produced. *)
Theorem invalid_custom_dimensions_exit_1 (args : Namespace) (w : world) :
  list_aspects args = false ->
  aspect args = "custom" ->
  custom_dimensions_invalid args ->
  ∃ msg, msg ∈ [ "Error: Custom aspect ratio requires both --width and --height arguments.";
                 "Error: Width and height must be positive numbers." ]
    ∧ main args w = (Raise (SystemExit 1), World (fs w) (stdout w ++ [msg +:+ LF]) (trace w))
    ∧ exit_status (main args w).1 = 1%Z.
Proof.
  intros Hl Ha Hbad.
  cut (∃ msg, msg ∈ [ "Error: Custom aspect ratio requires both --width and --height arguments.";
                      "Error: Width and height must be positive numbers." ]
         ∧ main args w = (Raise (SystemExit 1), World (fs w) (stdout w ++ [msg +:+ LF]) (trace w))).
  { intros (msg & Hmsg & Hrun). exists msg. by rewrite Hrun. }
  unfold main. rewrite Hl, Ha. rewrite bool_decide_eq_true_2 by reflexivity.
  unfold custom_dimensions_invalid in Hbad.
  destruct (width args) as [wv|] eqn:Hw, (height args) as [hv|] eqn:Hh.
  - assert (Hle : ((wv <=? 0)%float || (hv <=? 0)%float) = true).
    { destruct Hbad as [Hb|[Hb|[[v [Hv Hb]]|[v [Hv Hb]]]]]; simplify_eq.
      - by rewrite Hb.
      - rewrite Hb. apply orb_true_r. }
    eexists. split; [rewrite !elem_of_cons; by right; left |].
    unfold when, bind, lift, obind, le_zero, is_None. cbn -[PrimFloat.leb].
    destruct (wv <=? 0)%float; cbn -[PrimFloat.leb] in *.
    + reflexivity.
    + rewrite Hle. reflexivity.
  - eexists. split; [rewrite !elem_of_cons; by left | reflexivity].
  - eexists. split; [rewrite !elem_of_cons; by left | reflexivity].
  - eexists. split; [rewrite !elem_of_cons; by left | reflexivity].
Qed.

Lemma invalid_custom_dimensions_exit_1_witness :
  exit_status
    (main (MkNamespace "docs/report.pdf" None "custom" (Some 0%float) (Some 7.5%float)
             "high" None "auto" false false) sample_world).1 = 1%Z
  ∧ fs (main (MkNamespace "docs/report.pdf" None "custom" (Some 0%float) (Some 7.5%float)
                "high" None "auto" false false) sample_world).2 = fs sample_world.
Proof.
  destruct (invalid_custom_dimensions_exit_1
              (MkNamespace "docs/report.pdf" None "custom" (Some 0%float) (Some 7.5%float)
                 "high" None "auto" false false) sample_world eq_refl eq_refl)
    as (msg & _ & Hrun & Hexit).
  - right. right. left. exists 0%float. split; reflexivity.
  - split; [exact Hexit | by rewrite Hrun].
Defined.

(** C5 as stated fails: [--list-aspects] is handled before the custom
    dimensions are looked at, and the process exits with status 0. *)
Lemma list_aspects_precedes_custom_validation :
  aspect (MkNamespace "docs/report.pdf" None "custom" None None "high" None "auto"
            true false) = "custom"
  ∧ custom_dimensions_invalid
      (MkNamespace "docs/report.pdf" None "custom" None None "high" None "auto" true false)
  ∧ exit_status
      (main (MkNamespace "docs/report.pdf" None "custom" None None "high" None "auto"
               true false) sample_world).1 = 0%Z.
Proof.
  split; [reflexivity |]. split; [by left |]. vm_compute. reflexivity.
Qed.

(** ** C6: the resize *)

(** C6, as the code has it: in [page_to_slide] (the loop body of both
    converters) a page that renders to a raster of [pix_width] by [pix_height] pixels is saved, and
    embedded, as an image of height 1024 and of width
    [int(pix_width * (1024 / pix_height))], the product and the quotient
    taken in binary64 and [int] truncating toward zero.  The width is fixed
    by the raster's own dimensions: the canvas of [prs] plays no part. *)
Theorem resize_follows_raster_dimensions (temp_dir : string) (dpi : option Z) (i : Z)
    (pg : page) (prs : presentation) (w : world) (files : gmap string file)
    (pix : pixmap) (new_width : Z) :
  fs w !! temp_dir = Some files ->
  get_pixmap pg dpi = Rendered pix ->
  pix_height pix ≠ 0%Z ->
  int_of_float (float_of_int (pix_width pix)
                * (float_of_int 1024 / float_of_int (pix_height pix)))%float
    = Return new_width ->
  (1 <= new_width)%Z ->
  let resized := Image new_width 1024 (pix_samples pix) false None in
  ∃ w', page_to_slide temp_dir dpi i pg prs w =
          (Return (Presentation (slide_width prs) (slide_height prs)
                     (slides prs ++ [full_bleed (slide_width prs) (slide_height prs) resized])),
           w')
     ∧ lookup_file w' (scratch_png temp_dir i) = Some (PngFile resized).
Proof.
  intros Hd Hpix Hh Hw Hge resized.
  assert (Himg : page_image dpi pg = Some resized).
  { unfold page_image, resized_width, int_truediv, obind. rewrite Hpix.
    cbn [Image_frombytes img_height img_width].
    replace (pix_height pix =? 0)%Z with false by lia.
    unfold target_height. rewrite Hw.
    by replace (1 <=? new_width)%Z with true by lia. }
  eexists. split; [exact (page_to_slide_ok _ _ _ _ _ _ _ _ Hd Himg) |].
  rewrite (lookup_file_put w (scratch_png temp_dir i) _ _ files) by exact Hd.
  by rewrite bool_decide_eq_true_2.
Qed.

Lemma resize_follows_raster_dimensions_witness :
  ∃ w', page_to_slide "docs" (Some 300%Z) 0 (vector_page 612 792 1)
          (Presentation 12191695 6858000 []) sample_world =
          (Return (Presentation 12191695 6858000
                     [full_bleed 12191695 6858000 (Image 791 1024 [1%Z] false None)]), w')
     ∧ lookup_file w' (scratch_png "docs" 0) = Some (PngFile (Image 791 1024 [1%Z] false None)).
Proof.
  eapply (resize_follows_raster_dimensions "docs" (Some 300%Z) 0 (vector_page 612 792 1)
            (Presentation 12191695 6858000 []) sample_world _ (Pixmap 2550 3300 [1%Z] 96) 791).
  - vm_compute. reflexivity.
  - reflexivity.
  - discriminate.
  - vm_compute. reflexivity.
  - lia.
Defined.

(** C6 as stated fails: the width is not rounded.  A raster of 7 by 4096
    pixels scales to a width of 1.75; rounded that is 2, but [int] cuts it
    to 1, and the image saved for the page is 1 pixel wide.  And a square
    raster of 49 by 49, which scales to 1024 exactly, gets a width of 1023,
    as the binary64 product falls just short. *)
Lemma resized_width_is_not_rounded :
  get_pixmap narrow_page (Some 300%Z) = Rendered (Pixmap 7 4096 [8%Z] 96)
  ∧ rounded_width 7 4096 = 2%Z
  ∧ resized_width (Image_frombytes (Pixmap 7 4096 [8%Z] 96)) = Return 1%Z
  ∧ lookup_file (page_to_slide "docs" (Some 300%Z) 0 narrow_page Presentation_new
                   sample_world).2 (scratch_png "docs" 0)
    = Some (PngFile (Image 1 1024 [8%Z] false None))
  ∧ rounded_width 49 49 = 1024%Z
  ∧ resized_width (Image_frombytes (Pixmap 49 49 [] 96)) = Return 1023%Z.
Proof. repeat split; vm_compute; reflexivity. Qed.

(** Binary64 at work: a square raster of 49 by 49 pixels is resized to 1023
    by 1024, since 49 * (1024 / 49) falls just short of 1024. *)
Example resized_width_square_49 :
  resized_width (Image 49 49 [] false None) = Return 1023%Z.
Proof. vm_compute. reflexivity. Qed.

(** ** C7: listing the aspect ratios *)

(** C7: with [--list-aspects], [main] prints the aspect-ratio table and
    exits with status 0; the file system is left as it was and no call
    reaches outside the process, so neither the input path nor the output
    path is touched, whether the input exists or not. *)
Theorem list_aspects_prints_and_exits_0 (args : Namespace) (w : world) :
  list_aspects args = true ->
  main args w =
    (Raise (SystemExit 0),
     World (fs w) (stdout w ++ ((λ s, s +:+ LF) <$> aspect_table)) (trace w))
  ∧ exit_status (main args w).1 = 0%Z.
Proof.
  intros H. assert (Hrun : main args w =
    (Raise (SystemExit 0),
     World (fs w) (stdout w ++ ((λ s, s +:+ LF) <$> aspect_table)) (trace w))).
  { unfold main. rewrite H. unfold when at 1. unfold bind at 1. unfold bind at 1.
    cbn -[app]. rewrite <- !app_assoc. reflexivity. }
  by rewrite Hrun.
Qed.

Lemma list_aspects_prints_and_exits_0_witness :
  lookup_file sample_world (Path_of_string "docs/missing.pdf") = None
  ∧ exit_status
      (main (MkNamespace "docs/missing.pdf" None "custom" None None "high" None "auto"
               true false) sample_world).1 = 0%Z
  ∧ trace
      (main (MkNamespace "docs/missing.pdf" None "custom" None None "high" None "auto"
               true false) sample_world).2 = [].
Proof.
  split; [vm_compute; reflexivity |].
  destruct (list_aspects_prints_and_exits_0
              (MkNamespace "docs/missing.pdf" None "custom" None None "high" None "auto"
                 true false) sample_world eq_refl) as [Hrun Hexit].
  split; [exact Hexit | by rewrite Hrun].
Defined.

(** ** C8: the scratch directory *)

(** C8, as the code has it: a conversion call whose input exists and whose
    output path resolves creates one scratch directory, under a name no
    directory had, right after it has looked for the input; whatever it is
    given and however it ends (with a return value or with an exception),
    the removal of that directory is its last call, nothing is written in
    between but into that directory and to the output path, and the world
    it leaves has the directories it had before and every file as it was,
    except for a presentation at the output path: no intermediate raster
    outlives the call ([scratch_lifecycle]).  This holds for [pdf_to_pptx]
    of pdf2pptx.py and of main.py.  A call whose input does not exist, or
    whose output path cannot be derived, creates no scratch directory: it
    only looks for the input. *)
Theorem scratch_directory_is_removed
    (pdf_path : Path) (output_path : option string) (aspect_ratio : string)
    (custom_width custom_height : option float) (quality : string) (dpi : option Z)
    (method : string) (w : world) :
  let r := pdf_to_pptx pdf_path output_path aspect_ratio custom_width custom_height
             quality dpi method w in
  let r' := main_py.pdf_to_pptx pdf_path w in
  (∀ out, is_Some (lookup_file w pdf_path) ->
          resolved_output pdf_path output_path = Return out ->
          scratch_lifecycle (mkdtemp_name w) out [EvStat pdf_path] w r.2)
  ∧ (∀ out, is_Some (lookup_file w pdf_path) ->
            with_suffix pdf_path ".pptx" = Return out ->
            scratch_lifecycle (mkdtemp_name w) out [EvStat pdf_path] w r'.2)
  ∧ (lookup_file w pdf_path = None ->
       fs r.2 = fs w ∧ trace r.2 = trace w ++ [EvStat pdf_path]
       ∧ fs r'.2 = fs w ∧ trace r'.2 = trace w ++ [EvStat pdf_path])
  ∧ (∀ e, is_Some (lookup_file w pdf_path) ->
          resolved_output pdf_path output_path = Raise e ->
          r = (Raise e, log (EvStat pdf_path) w))
  ∧ (∀ e, is_Some (lookup_file w pdf_path) ->
          with_suffix pdf_path ".pptx" = Raise e ->
          r' = (Raise e, log (EvStat pdf_path) w)).
Proof.
  intros r r'. subst r r'. split; [| split; [| split; [| split]]].
  - intros out Hfound Hout. by apply pdf_to_pptx_lifecycle.
  - intros out Hfound Hout. by apply main_py_pdf_to_pptx_lifecycle.
  - intros Hnone.
    destruct (pdf_to_pptx_missing pdf_path output_path aspect_ratio custom_width
                custom_height quality dpi method w Hnone) as [-> ->].
    done.
  - intros e Hfound Hout. unfold pdf_to_pptx. unfold bind at 1. cbn [Path_exists].
    rewrite bool_decide_eq_true_2 by done. cbn [negb]. unfold bind at 1.
    unfold resolved_output in Hout. destruct (truthy_str output_path); [done |].
    unfold lift at 1. by rewrite Hout.
  - intros e Hfound Hout. unfold main_py.pdf_to_pptx. unfold bind at 1. cbn [Path_exists].
    rewrite bool_decide_eq_true_2 by done. cbn [negb]. unfold bind at 1.
    unfold lift at 1. by rewrite Hout.
Qed.

Lemma scratch_directory_is_removed_witness :
  scratch_lifecycle (mkdtemp_name sample_world) (MkPath "docs" "deck.pptx")
    [EvStat (MkPath "docs" "deck.pdf")] sample_world
    (pdf_to_pptx (MkPath "docs" "deck.pdf") None "4:3" None None "high" None "png"
       sample_world).2
  ∧ scratch_lifecycle (mkdtemp_name sample_world) (MkPath "docs" "report.pptx")
      [EvStat (MkPath "docs" "report.pdf")] sample_world
      (main_py.pdf_to_pptx (MkPath "docs" "report.pdf") sample_world).2.
Proof.
  split.
  - apply (proj1 (scratch_directory_is_removed (MkPath "docs" "deck.pdf") None "4:3" None None
                    "high" None "png" sample_world)).
    + eexists. vm_compute. reflexivity.
    + vm_compute. reflexivity.
  - apply (proj1 (proj2 (scratch_directory_is_removed (MkPath "docs" "report.pdf") None "4:3"
                           None None "high" None "png" sample_world))).
    + eexists. vm_compute. reflexivity.
    + vm_compute. reflexivity.
Defined.

(** C8 as stated fails: not every conversion call creates a scratch
    directory.  When the input is missing, the call has returned [False]
    before the [with] statement is reached: all it did was to look for the
    input. *)
Lemma missing_input_creates_no_scratch_directory :
  lookup_file sample_world (MkPath "docs" "absent.pdf") = None
  ∧ pdf_to_pptx (MkPath "docs" "absent.pdf") None "4:3" None None "high" None "png"
      sample_world
    = (Return false,
       World (fs sample_world) ["Error: File docs/absent.pdf not found." +:+ LF]
         [EvStat (MkPath "docs" "absent.pdf")])
  ∧ (∀ d, EvMkdtemp d ∉ trace (pdf_to_pptx (MkPath "docs" "absent.pdf") None "4:3" None None
                                 "high" None "png" sample_world).2).
Proof.
  split; [vm_compute; reflexivity |]. split; [vm_compute; reflexivity |].
  intros d Hin. vm_compute in Hin. apply elem_of_cons in Hin as [Hin|Hin]; [done |].
  by apply elem_of_nil in Hin.
Qed.

(** ** C9: [custom] without usable dimensions *)

(** C9: with [aspect_ratio = "custom"] and a width or height that is [None]
    or zero, [get_slide_dimensions] (a total function: nothing is raised)
    returns the 4:3 pair (10.0, 7.5) and not the custom values. *)
Theorem custom_without_dimensions_falls_back (cw ch : option float) :
  truthy_float cw = false ∨ truthy_float ch = false ->
  get_slide_dimensions "custom" cw ch = (10.0, 7.5)%float.
Proof.
  intros H. unfold get_slide_dimensions.
  rewrite bool_decide_eq_true_2 by done. cbn [andb].
  destruct H as [-> | ->]; [| rewrite andb_false_r]; vm_compute; reflexivity.
Qed.

Lemma custom_without_dimensions_falls_back_witness :
  get_slide_dimensions "custom" None (Some 5.0%float) = (10.0, 7.5)%float
  ∧ get_slide_dimensions "custom" (Some 12.0%float) (Some 0%float) = (10.0, 7.5)%float
  ∧ get_slide_dimensions "custom" (Some (-0.0)%float) (Some 5.0%float) = (10.0, 7.5)%float.
Proof.
  split; [| split]; apply custom_without_dimensions_falls_back.
  - left. reflexivity.
  - right. reflexivity.
  - left. reflexivity.
Defined.

(** ** C10: the page helpers *)









(** The exception at work: with [use_pil_enhancement] and no DPI, Pillow
    has opened the target before the encoder fails on the resolution; a
    file that was at the target is a stump afterwards, and the helper
    returns [None]. *)
Lemma enhanced_helper_can_leave_a_stump :
  let w := World {[ "docs" := {[ "report.pdf" := Document report_pdf;
                                 "slide-0.png" := PngFile (Image 10 10 [] false None) ]} ]}
             [] [] in
  (convert_pdf_to_high_quality_png (MkPath "docs" "report.pdf") "docs" 0 None true w).1
  = Return None
  ∧ lookup_file
      (convert_pdf_to_high_quality_png (MkPath "docs" "report.pdf") "docs" 0 None true w).2
      (MkPath "docs" "slide-0.png") = Some OtherFile
  ∧ stdout
      (convert_pdf_to_high_quality_png (MkPath "docs" "report.pdf") "docs" 0 None true w).2
    = ["Error converting page 1 to PNG: unsupported operand type(s) for /: 'NoneType' and 'float'"
       +:+ LF].
Proof. repeat split; vm_compute; reflexivity. Qed.


(** * Further properties

    Properties of the code beyond the claims, X1 to X20. *)

(** ** An input that does not exist *)

(** X1: when nothing is at the input path, [pdf_to_pptx] (of either file)
    returns [False] rather than raising; it prints one line naming the path,
    has looked at the path once, and has created no scratch directory: the
    file system is as it was. *)
Theorem missing_input_returns_False
    (pdf_path : Path) (output_path : option string) (aspect_ratio : string)
    (custom_width custom_height : option float) (quality : string) (dpi : option Z)
    (method : string) (w : world) :
  lookup_file w pdf_path = None ->
  let w' := World (fs w)
              (stdout w ++ [("Error: File " +:+ str_of_Path pdf_path +:+ " not found.") +:+ LF])
              (trace w ++ [EvStat pdf_path]) in
  pdf_to_pptx pdf_path output_path aspect_ratio custom_width custom_height
    quality dpi method w = (Return false, w')
  ∧ main_py.pdf_to_pptx pdf_path w = (Return false, w').
Proof.
  intros Hnone w'.
  split; [unfold pdf_to_pptx | unfold main_py.pdf_to_pptx];
    unfold bind at 1; cbn [Path_exists]; rewrite Hnone;
    (rewrite bool_decide_eq_false_2 by (by intros [x Hx])); reflexivity.
Qed.

Lemma missing_input_returns_False_witness :
  (pdf_to_pptx (MkPath "docs" "absent.pdf") None "4:3" None None "high" None "png"
     sample_world).1 = Return false
  ∧ (main_py.pdf_to_pptx (MkPath "docs" "absent.pdf") sample_world).1 = Return false.
Proof.
  destruct (missing_input_returns_False (MkPath "docs" "absent.pdf") None "4:3" None None
              "high" None "png" sample_world) as [H1 H2].
  - vm_compute. reflexivity.
  - by rewrite H1, H2.
Defined.

(** X2: when the validation of the arguments passes and nothing is at the
    input path, [main] exits with status 1 after one look at the path and
    one printed line, which names the path as [Path] writes it (redundant
    separators and dots dropped); the conversion is not started, whether
    [--simple] is given or not. *)
Theorem main_missing_input_exits_1 (args : Namespace) (w : world) :
  list_aspects args = false ->
  validation_passes args ->
  lookup_file w (Path_of_string (input_pdf args)) = None ->
  main args w =
    (Raise (SystemExit 1),
     World (fs w)
       (stdout w ++ [("Error: Input file '" +:+ str_of_Path (Path_of_string (input_pdf args))
                      +:+ "' not found.") +:+ LF])
       (trace w ++ [EvStat (Path_of_string (input_pdf args))])).
Proof.
  intros Hl Hv Hnone. rewrite (main_run args w Hl Hv). cbv zeta.
  rewrite Hnone. by rewrite bool_decide_eq_false_2 by (by intros [x Hx]).
Qed.

Lemma main_missing_input_exits_1_witness :
  main (default_args "docs//./absent.pdf") sample_world
  = (Raise (SystemExit 1),
     World (fs sample_world) ["Error: Input file 'docs/absent.pdf' not found." +:+ LF]
       [EvStat (MkPath "docs" "absent.pdf")]).
Proof.
  rewrite (main_missing_input_exits_1 (default_args "docs//./absent.pdf") sample_world).
  - vm_compute. reflexivity.
  - reflexivity.
  - left. discriminate.
  - vm_compute. reflexivity.
Defined.

(** ** How [main] passes on to the conversion *)

(** X3: without [--list-aspects] and [--simple], with arguments that pass
    the validation and an input that exists, [main] is the conversion called
    with the parsed options: it leaves the world the conversion leaves, it
    exits with status 0 when the conversion returns [True] and with status 1
    when it returns [False], and an exception of the conversion is not
    caught. *)
Theorem main_exit_status_follows_conversion (args : Namespace) (w : world) :
  list_aspects args = false ->
  simple args = false ->
  validation_passes args ->
  is_Some (lookup_file w (Path_of_string (input_pdf args))) ->
  let r := pdf_to_pptx (Path_of_string (input_pdf args)) (output args) (aspect args)
             (width args) (height args) (quality args) (dpi args) (method args)
             (log (EvStat (Path_of_string (input_pdf args))) w) in
  (main args w).2 = r.2
  ∧ (r.1 = Return true -> (main args w).1 = Raise (SystemExit 0))
  ∧ (r.1 = Return false -> (main args w).1 = Raise (SystemExit 1))
  ∧ (∀ e, r.1 = Raise e -> (main args w).1 = Raise e).
Proof.
  intros Hl Hs Hv Hfound r. rewrite (main_run args w Hl Hv). cbv zeta.
  rewrite bool_decide_eq_true_2 by done. rewrite Hs. fold r.
  destruct r as [[[|]|e] w']; cbn [fst snd]; repeat split; try done;
    by intros e' [= <-].
Qed.

Lemma main_exit_status_follows_conversion_witness :
  (main (default_args "docs/report.pdf") sample_world).1 = Raise (SystemExit 0).
Proof.
  destruct (main_exit_status_follows_conversion (default_args "docs/report.pdf") sample_world)
    as (_ & Hok & _).
  - reflexivity.
  - reflexivity.
  - left. discriminate.
  - eexists. vm_compute. reflexivity.
  - apply Hok. vm_compute. reflexivity.
Defined.

(** X4: under [--simple] the run depends on the input and output paths
    only: two argument sets that agree on those, both with [--simple], both
    without [--list-aspects] and both passing the validation, run alike,
    whatever their aspect, width, height, quality, DPI and method. *)
Theorem simple_mode_ignores_other_options (args1 args2 : Namespace) (w : world) :
  input_pdf args1 = input_pdf args2 ->
  output args1 = output args2 ->
  simple args1 = true -> simple args2 = true ->
  list_aspects args1 = false -> list_aspects args2 = false ->
  validation_passes args1 -> validation_passes args2 ->
  main args1 w = main args2 w.
Proof.
  intros Hin Hout Hs1 Hs2 Hl1 Hl2 Hv1 Hv2.
  rewrite (main_run args1 w Hl1 Hv1), (main_run args2 w Hl2 Hv2).
  by rewrite Hs1, Hs2, Hin, Hout.
Qed.

Lemma simple_mode_ignores_other_options_witness :
  main (MkNamespace "docs/report.pdf" None "16:9" None None "ultra" (Some 72%Z) "auto"
          false true) sample_world
  = main (MkNamespace "docs/report.pdf" None "portrait" (Some 3%float) None "low" None "png"
            false true) sample_world.
Proof.
  apply simple_mode_ignores_other_options; try reflexivity; left; discriminate.
Defined.

(** ** What a successful conversion leaves *)

(** X5: a conversion that succeeds changes the file system in one place:
    the directory of the output path gets the presentation under the
    output's name, replacing whatever was there; every other file and
    directory is as before, the scratch directory included.  The same holds
    for [pdf_to_pptx] of main.py. *)
Theorem conversion_writes_only_the_output :
  (∀ pdf_path output_path aspect_ratio custom_width custom_height quality dpi method
     (w : world) (pages : list page) (imgs : list image) (out : Path) (sw sh : Z)
     (dd : gmap string file),
     lookup_file w pdf_path = Some (Document pages) ->
     resolved_output pdf_path output_path = Return out ->
     fs w !! parent out = Some dd ->
     canvas (get_slide_dimensions aspect_ratio custom_width custom_height).1
            (get_slide_dimensions aspect_ratio custom_width custom_height).2 = Some (sw, sh) ->
     Forall2 (λ pg img, page_image (effective_dpi quality dpi) pg = Some img) pages imgs ->
     fs (pdf_to_pptx pdf_path output_path aspect_ratio custom_width custom_height
           quality dpi method w).2
     = <[parent out := <[name out := PptxFile (Presentation sw sh (full_bleed sw sh <$> imgs))]> dd]>
         (fs w))
  ∧ (∀ pdf_path (w : world) (pages : list page) (imgs : list image) (out : Path)
       (dd : gmap string file),
       lookup_file w pdf_path = Some (Document pages) ->
       with_suffix pdf_path ".pptx" = Return out ->
       fs w !! parent out = Some dd ->
       Forall2 (λ pg img, page_image (Some 300%Z) pg = Some img) pages imgs ->
       fs (main_py.pdf_to_pptx pdf_path w).2
       = <[parent out := <[name out := PptxFile (Presentation 9144000 6858000
                                             (full_bleed 9144000 6858000 <$> imgs))]> dd]>
           (fs w)).
Proof.
  split.
  - intros pdf_path output_path aspect_ratio cw ch q d m w pages imgs out sw sh dd
      Hdoc Hout Hdd Hcanvas Hpages.
    by rewrite (pdf_to_pptx_run _ _ _ _ _ _ _ m _ _ _ _ _ _ _ Hdoc Hout Hdd Hcanvas Hpages).
  - intros pdf_path w pages imgs out dd Hdoc Hout Hdd Hpages.
    by rewrite (main_py_pdf_to_pptx_run _ _ _ _ _ _ Hdoc Hout Hdd Hpages).
Qed.

Lemma conversion_writes_only_the_output_witness :
  (fs (pdf_to_pptx (MkPath "docs" "report.pdf") None "4:3" None None "high" None "png"
         sample_world).2 !! "docs" ≫= λ d, d !! "deck.pdf") = Some (Document deck_pdf)
  ∧ (fs (main_py.pdf_to_pptx (MkPath "docs" "deck.pdf")
           (World {[ "docs" := {[ "deck.pdf" := Document report_pdf;
                                  "deck.pptx" := OtherFile ]} ]} [] [])).2
       !! "docs" ≫= λ d, d !! "deck.pptx")
    = Some (PptxFile (Presentation 9144000 6858000
              (full_bleed 9144000 6858000
                 <$> [Image 791 1024 [1%Z] false None; Image 1325 1024 [2%Z] false None]))).
Proof.
  split.
  - erewrite (proj1 conversion_writes_only_the_output (MkPath "docs" "report.pdf") None
                "4:3" None None "high" None "png" sample_world report_pdf
                [Image 791 1024 [1%Z] false None; Image 1325 1024 [2%Z] false None]
                (MkPath "docs" "report.pptx") 9144000%Z 6858000%Z
                {[ "report.pdf" := Document report_pdf; "deck.pdf" := Document deck_pdf ]}).
    + vm_compute. reflexivity.
    + vm_compute. reflexivity.
    + vm_compute. reflexivity.
    + vm_compute. reflexivity.
    + vm_compute. reflexivity.
    + repeat constructor.
  - erewrite (proj2 conversion_writes_only_the_output (MkPath "docs" "deck.pdf") _ report_pdf
                [Image 791 1024 [1%Z] false None; Image 1325 1024 [2%Z] false None]
                (MkPath "docs" "deck.pptx")
                {[ "deck.pdf" := Document report_pdf; "deck.pptx" := OtherFile ]}).
    + vm_compute. reflexivity.
    + vm_compute. reflexivity.
    + vm_compute. reflexivity.
    + vm_compute. reflexivity.
    + repeat constructor.
Defined.

(** X6: what a successful conversion of pdf2pptx.py prints, in order: the
    name of the input, the page count, one progress line per page that
    counts the pages from 1 up to the page count, then a bare carriage
    return, the output path and the completion line. *)
Theorem progress_counts_pages_from_1
    (pdf_path : Path) (output_path : option string) (aspect_ratio : string)
    (custom_width custom_height : option float) (quality : string) (dpi : option Z)
    (method : string) (w : world) (pages : list page) (imgs : list image)
    (out : Path) (sw sh : Z) :
  lookup_file w pdf_path = Some (Document pages) ->
  resolved_output pdf_path output_path = Return out ->
  is_Some (fs w !! parent out) ->
  canvas (get_slide_dimensions aspect_ratio custom_width custom_height).1
         (get_slide_dimensions aspect_ratio custom_width custom_height).2 = Some (sw, sh) ->
  Forall2 (λ pg img, page_image (effective_dpi quality dpi) pg = Some img) pages imgs ->
  stdout (pdf_to_pptx pdf_path output_path aspect_ratio custom_width custom_height
            quality dpi method w).2
  = stdout w
    ++ [ ("Processing: " +:+ name pdf_path) +:+ LF;
         ("PDF pages: " +:+ pretty (Z.of_nat (length pages))) +:+ LF ]
    ++ ((λ i, CR +:+ "Processing: Page " +:+ pretty (i + 1)%Z +:+ "/"
              +:+ pretty (Z.of_nat (length pages)))
          <$> seqZ 0 (Z.of_nat (length pages)))
    ++ [ CR +:+ LF; ("Output file: " +:+ str_of_Path out) +:+ LF;
         "Conversion completed!" +:+ LF ].
Proof.
  intros Hdoc Hout [dd Hdd] Hcanvas Hpages.
  by rewrite (pdf_to_pptx_run _ _ _ _ _ _ _ method _ _ _ _ _ _ _
                Hdoc Hout Hdd Hcanvas Hpages).
Qed.

Lemma progress_counts_pages_from_1_witness :
  stdout (pdf_to_pptx (MkPath "docs" "report.pdf") None "4:3" None None "high" None "png"
            sample_world).2
  = [ "Processing: report.pdf" +:+ LF; "PDF pages: 2" +:+ LF;
      CR +:+ "Processing: Page 1/2"; CR +:+ "Processing: Page 2/2";
      CR +:+ LF; "Output file: docs/report.pptx" +:+ LF; "Conversion completed!" +:+ LF ].
Proof.
  erewrite (progress_counts_pages_from_1 (MkPath "docs" "report.pdf") None "4:3" None None
              "high" None "png" sample_world report_pdf
              [Image 791 1024 [1%Z] false None; Image 1325 1024 [2%Z] false None]
              (MkPath "docs" "report.pptx")).
  - vm_compute. reflexivity.
  - vm_compute. reflexivity.
  - vm_compute. reflexivity.
  - eexists. vm_compute. reflexivity.
  - vm_compute. reflexivity.
  - repeat constructor.
Defined.

(** X7: [pdf_to_pptx] of main.py prints the page index itself in its
    progress lines: they count from 0 and stop one short of the page count
    (lines 59 of main.py, against 194 of pdf2pptx.py). *)
Theorem main_py_progress_counts_pages_from_0
    (pdf_path : Path) (w : world) (pages : list page) (imgs : list image) (out : Path) :
  lookup_file w pdf_path = Some (Document pages) ->
  with_suffix pdf_path ".pptx" = Return out ->
  Forall2 (λ pg img, page_image (Some 300%Z) pg = Some img) pages imgs ->
  stdout (main_py.pdf_to_pptx pdf_path w).2
  = stdout w
    ++ [ ("Processing: " +:+ name pdf_path) +:+ LF;
         ("PDF pages: " +:+ pretty (Z.of_nat (length pages))) +:+ LF ]
    ++ ((λ i, CR +:+ "Processing: Page " +:+ pretty i +:+ "/"
              +:+ pretty (Z.of_nat (length pages)))
          <$> seqZ 0 (Z.of_nat (length pages)))
    ++ [ CR +:+ LF; ("Output file: " +:+ str_of_Path out) +:+ LF;
         "Conversion completed!" +:+ LF ].
Proof.
  intros Hdoc Hout Hpages.
  assert (Hparent : is_Some (fs w !! parent out)).
  { rewrite (with_suffix_parent _ _ _ Hout). by eapply lookup_file_parent. }
  destruct Hparent as [dd Hdd].
  by rewrite (main_py_pdf_to_pptx_run _ _ _ _ _ _ Hdoc Hout Hdd Hpages).
Qed.

Lemma main_py_progress_counts_pages_from_0_witness :
  stdout (main_py.pdf_to_pptx (MkPath "docs" "report.pdf") sample_world).2
  = [ "Processing: report.pdf" +:+ LF; "PDF pages: 2" +:+ LF;
      CR +:+ "Processing: Page 0/2"; CR +:+ "Processing: Page 1/2";
      CR +:+ LF; "Output file: docs/report.pptx" +:+ LF; "Conversion completed!" +:+ LF ].
Proof.
  erewrite (main_py_progress_counts_pages_from_0 (MkPath "docs" "report.pdf") sample_world
              report_pdf
              [Image 791 1024 [1%Z] false None; Image 1325 1024 [2%Z] false None]
              (MkPath "docs" "report.pptx")).
  - vm_compute. reflexivity.
  - vm_compute. reflexivity.
  - vm_compute. reflexivity.
  - repeat constructor.
Defined.

(** X8: the external calls of a successful conversion, in order: one look
    at the input path, the creation of the scratch directory, the opening of
    the document, then for each page in turn its rendering at the effective
    DPI, the writing of its scratch file [slide-<index>.png] and the reading
    of that file back for the slide, then the writing of the output and the
    removal of the scratch directory.  Each page is rendered once. *)
Theorem conversion_call_sequence
    (pdf_path : Path) (output_path : option string) (aspect_ratio : string)
    (custom_width custom_height : option float) (quality : string) (dpi : option Z)
    (method : string) (w : world) (pages : list page) (imgs : list image)
    (out : Path) (sw sh : Z) :
  lookup_file w pdf_path = Some (Document pages) ->
  resolved_output pdf_path output_path = Return out ->
  is_Some (fs w !! parent out) ->
  canvas (get_slide_dimensions aspect_ratio custom_width custom_height).1
         (get_slide_dimensions aspect_ratio custom_width custom_height).2 = Some (sw, sh) ->
  Forall2 (λ pg img, page_image (effective_dpi quality dpi) pg = Some img) pages imgs ->
  let d := mkdtemp_name w in
  trace (pdf_to_pptx pdf_path output_path aspect_ratio custom_width custom_height
           quality dpi method w).2
  = trace w
    ++ [EvStat pdf_path; EvMkdtemp d; EvOpen pdf_path]
    ++ concat ((λ i, [ EvRender (effective_dpi quality dpi);
                       EvWrite (MkPath d ("slide-" +:+ pretty i +:+ ".png"));
                       EvRead (MkPath d ("slide-" +:+ pretty i +:+ ".png")) ])
                 <$> seqZ 0 (Z.of_nat (length pages)))
    ++ [EvWrite out; EvRmtree d].
Proof.
  intros Hdoc Hout [dd Hdd] Hcanvas Hpages d.
  by rewrite (pdf_to_pptx_run _ _ _ _ _ _ _ method _ _ _ _ _ _ _
                Hdoc Hout Hdd Hcanvas Hpages).
Qed.

Lemma conversion_call_sequence_witness :
  rendered_dpis
    (trace (pdf_to_pptx (MkPath "docs" "report.pdf") None "4:3" None None "medium" None "png"
              sample_world).2)
  = [Some 300%Z; Some 300%Z].
Proof.
  erewrite (conversion_call_sequence (MkPath "docs" "report.pdf") None "4:3" None None
              "medium" None "png" sample_world report_pdf
              [Image 791 1024 [1%Z] false None; Image 1325 1024 [2%Z] false None]
              (MkPath "docs" "report.pptx")).
  - vm_compute. reflexivity.
  - vm_compute. reflexivity.
  - vm_compute. reflexivity.
  - eexists. vm_compute. reflexivity.
  - vm_compute. reflexivity.
  - repeat constructor.
Defined.

(** ** Conversions that fail *)

(** X9: when the pages before index [k] all become slides and the page at
    [k] does not, the conversion raises exactly the exception of that page.
    By then it has printed the progress lines of the pages up to and
    including [k] and no error line, has rendered those [k + 1] pages and
    none after them, and has removed the scratch directory; the file system
    is as it was. *)
Theorem first_failing_page_stops_conversion
    (pdf_path : Path) (output_path : option string) (aspect_ratio : string)
    (custom_width custom_height : option float) (quality : string) (dpi : option Z)
    (method : string) (w : world) (oks rest : list page) (bad : page)
    (imgs : list image) (out : Path) (sw sh : Z) (e : exn) :
  lookup_file w pdf_path = Some (Document (oks ++ bad :: rest)) ->
  resolved_output pdf_path output_path = Return out ->
  canvas (get_slide_dimensions aspect_ratio custom_width custom_height).1
         (get_slide_dimensions aspect_ratio custom_width custom_height).2 = Some (sw, sh) ->
  Forall2 (λ pg img, page_image (effective_dpi quality dpi) pg = Some img) oks imgs ->
  page_error (effective_dpi quality dpi) bad = Some e ->
  let n := length (oks ++ bad :: rest) in
  let d := mkdtemp_name w in
  pdf_to_pptx pdf_path output_path aspect_ratio custom_width custom_height
    quality dpi method w =
    (Raise e,
     World (fs w)
       (stdout w
          ++ [ ("Processing: " +:+ name pdf_path) +:+ LF;
               ("PDF pages: " +:+ pretty (Z.of_nat n)) +:+ LF ]
          ++ ((λ i, CR +:+ "Processing: Page " +:+ pretty (i + 1)%Z +:+ "/"
                    +:+ pretty (Z.of_nat n))
                <$> seqZ 0 (Z.of_nat (length oks) + 1)))
       (trace w ++ [EvStat pdf_path; EvMkdtemp d; EvOpen pdf_path]
          ++ concat (page_events d (effective_dpi quality dpi)
                       <$> seqZ 0 (Z.of_nat (length oks)))
          ++ [EvRender (effective_dpi quality dpi); EvRmtree d])).
Proof.
  intros Hdoc Hout Hcanvas Hoks Hbad n d.
  exact (pdf_to_pptx_stops _ _ _ _ _ _ _ method _ _ _ _ _ _ _ _ _
           Hdoc Hout Hcanvas Hoks Hbad).
Qed.

Lemma first_failing_page_stops_conversion_witness :
  (pdf_to_pptx (MkPath "docs" "deck.pdf") None "4:3" None None "low" None "png"
     sample_world).1 = Raise (Exception "RuntimeError" "cannot render page")
  ∧ rendered_dpis
      (trace (pdf_to_pptx (MkPath "docs" "deck.pdf") None "4:3" None None "low" None "png"
                sample_world).2)
    = [Some 150%Z; Some 150%Z; Some 150%Z].
Proof.
  rewrite (first_failing_page_stops_conversion (MkPath "docs" "deck.pdf") None "4:3" None None
             "low" None "png" sample_world
             [vector_page 612 792 1; vector_page 612 792 2]
             [vector_page 612 792 4; vector_page 612 792 5] broken_page
             [Image 791 1024 [1%Z] false None; Image 791 1024 [2%Z] false None]
             (MkPath "docs" "deck.pptx") 9144000%Z 6858000%Z
             (Exception "RuntimeError" "cannot render page")).
  - split; vm_compute; reflexivity.
  - vm_compute. reflexivity.
  - vm_compute. reflexivity.
  - vm_compute. reflexivity.
  - repeat constructor.
  - reflexivity.
Defined.

(** X10: a page whose raster has height 0 cannot be resized: [target_height
    / img.height] raises [ZeroDivisionError], which leaves [page_to_slide]
    after the rendering and before anything is written or any slide is
    added. *)
Theorem zero_height_raster_raises_ZeroDivisionError
    (temp_dir : string) (dpi : option Z) (i : Z) (pg : page) (prs : presentation)
    (w : world) (pix : pixmap) :
  get_pixmap pg dpi = Rendered pix ->
  pix_height pix = 0%Z ->
  page_to_slide temp_dir dpi i pg prs w =
    (Raise (Exception "ZeroDivisionError" "division by zero"),
     World (fs w) (stdout w) (trace w ++ [EvRender dpi])).
Proof.
  intros Hpix Hh. apply page_to_slide_raises.
  unfold page_error, resized_width, int_truediv, obind. rewrite Hpix.
  cbn [Image_frombytes img_height]. by rewrite Hh.
Qed.

Lemma zero_height_raster_raises_ZeroDivisionError_witness :
  (page_to_slide "docs" (Some 300%Z) 0 flat_page Presentation_new sample_world).1
  = Raise (Exception "ZeroDivisionError" "division by zero").
Proof.
  rewrite (zero_height_raster_raises_ZeroDivisionError "docs" (Some 300%Z) 0 flat_page
             Presentation_new sample_world (Pixmap 100 0 [9%Z] 96)); reflexivity.
Defined.



(** ** The canvas *)

Lemma ratios_lookup_Some (k : string) (wh : float * float) :
  ratios !! k = Some wh -> (k, wh) ∈ ratios_items.
Proof. apply elem_of_list_to_map_2. Qed.

(** X12: unless the custom branch is taken, [get_slide_dimensions] returns
    a pair of the table, whatever the keyword is, and every pair of the
    table makes a canvas python-pptx admits: each side converts to between
    6858000 and 12191695 EMU (7.5 to 13.333 inches).  Setting the canvas
    can fail for custom dimensions only. *)
Theorem table_canvas_is_always_valid (aspect_ratio : string)
    (custom_width custom_height : option float) :
  aspect_ratio ≠ "custom" ∨ truthy_float custom_width = false
    ∨ truthy_float custom_height = false ->
  ∃ sw sh,
    canvas (get_slide_dimensions aspect_ratio custom_width custom_height).1
           (get_slide_dimensions aspect_ratio custom_width custom_height).2 = Some (sw, sh)
    ∧ (6858000 <= sw <= 12191695)%Z ∧ (6858000 <= sh <= 12191695)%Z.
Proof.
  intros Hbranch.
  assert (Hgsd : get_slide_dimensions aspect_ratio custom_width custom_height
                 = default ratios_4_3 (ratios !! aspect_ratio)).
  { unfold get_slide_dimensions.
    destruct Hbranch as [Hk | [Hw | Hh]].
    - by rewrite bool_decide_eq_false_2.
    - by rewrite Hw, andb_false_r.
    - by rewrite Hh, andb_false_r. }
  rewrite Hgsd. clear Hgsd Hbranch.
  destruct (ratios !! aspect_ratio) as [wh|] eqn:Hk.
  - apply ratios_lookup_Some in Hk. unfold ratios_items in Hk.
    repeat (apply elem_of_cons in Hk as [Hk|Hk];
            [injection Hk as -> ->; eexists _, _; split; [vm_compute; reflexivity | lia] |]).
    by apply elem_of_nil in Hk.
  - eexists _, _. split; [vm_compute; reflexivity | lia].
Qed.

Lemma table_canvas_is_always_valid_witness :
  ∃ sw sh,
    canvas (get_slide_dimensions "a4" (Some 0.25%float) None).1
           (get_slide_dimensions "a4" (Some 0.25%float) None).2 = Some (sw, sh)
    ∧ (6858000 <= sw <= 12191695)%Z ∧ (6858000 <= sh <= 12191695)%Z.
Proof.
  apply table_canvas_is_always_valid. left. discriminate.
Defined.

Lemma float_eqb_leb (x y : float) : (x =? y)%float = true -> (x <=? y)%float = true.
Proof.
  rewrite FloatAxioms.eqb_spec, FloatAxioms.leb_spec. unfold SFeqb, SFleb.
  by destruct (SFcompare (Prim2SF x) (Prim2SF y)) as [[]|].
Qed.

Lemma passing_dimensions_are_truthy (w : float) :
  (w <=? 0)%float = false -> truthy_float (Some w) = true.
Proof.
  intros Hle. unfold truthy_float.
  destruct (w =? 0)%float eqn:Heq; [| done].
  apply float_eqb_leb in Heq. congruence.
Qed.

Lemma get_slide_dimensions_custom_pass (args : Namespace) (w h : float) :
  aspect args = "custom" ->
  width args = Some w -> height args = Some h ->
  (w <=? 0)%float = false -> (h <=? 0)%float = false ->
  get_slide_dimensions (aspect args) (width args) (height args) = (w, h).
Proof.
  intros -> -> -> Hw Hh. unfold get_slide_dimensions.
  rewrite bool_decide_eq_true_2 by done.
  by rewrite (passing_dimensions_are_truthy w Hw), (passing_dimensions_are_truthy h Hh).
Qed.

(** X13: custom dimensions that [main]'s validation lets through are the
    ones [get_slide_dimensions] returns: a width and a height that are not
    at or below zero are truthy, so the silent fall-back to 4:3 that
    [get_slide_dimensions] has for falsy custom values cannot happen to
    arguments that went through [main]. *)
Theorem validated_custom_dimensions_are_used (args : Namespace) :
  aspect args = "custom" ->
  custom_dimensions_pass args ->
  ∃ w h, width args = Some w ∧ height args = Some h
    ∧ get_slide_dimensions (aspect args) (width args) (height args) = (w, h).
Proof.
  intros Ha (w & h & Hw & Hh & Hwle & Hhle). exists w, h.
  repeat split; [done | done |]. by apply get_slide_dimensions_custom_pass.
Qed.

Lemma validated_custom_dimensions_are_used_witness :
  get_slide_dimensions "custom" (Some 16.0%float) (Some 9.0%float) = (16.0, 9.0)%float.
Proof.
  destruct (validated_custom_dimensions_are_used
              (MkNamespace "docs/report.pdf" None "custom" (Some 16.0%float)
                 (Some 9.0%float) "high" None "auto" false false))
    as (w & h & Hw & Hh & Hgsd).
  - reflexivity.
  - exists 16.0%float, 9.0%float. repeat split; reflexivity.
  - cbn [aspect width height] in *. by simplify_eq.
Defined.

(** X14: in full mode, arguments that pass the validation can still make
    the canvas impossible to set (a NaN or infinite custom dimension, or one
    python-pptx does not admit).  Then the exception of the canvas setup
    reaches the top level after the document has been opened and before any
    page is rendered; the scratch directory is removed and the file system
    is as it was. *)
Theorem unusable_canvas_stops_before_rendering (args : Namespace) (w : world)
    (pages : list page) (out : Path) (e : exn) :
  list_aspects args = false ->
  simple args = false ->
  validation_passes args ->
  lookup_file w (Path_of_string (input_pdf args)) = Some (Document pages) ->
  resolved_output (Path_of_string (input_pdf args)) (output args) = Return out ->
  canvas_setup (get_slide_dimensions (aspect args) (width args) (height args)).1
               (get_slide_dimensions (aspect args) (width args) (height args)).2 = Raise e ->
  let pdf_path := Path_of_string (input_pdf args) in
  main args w =
    (Raise e,
     World (fs w)
       (stdout w ++ [ ("Processing: " +:+ name pdf_path) +:+ LF;
                      ("PDF pages: " +:+ pretty (Z.of_nat (length pages))) +:+ LF ])
       (trace w ++ [EvStat pdf_path; EvStat pdf_path; EvMkdtemp (mkdtemp_name w);
                    EvOpen pdf_path; EvRmtree (mkdtemp_name w)])).
Proof.
  intros Hl Hs Hv Hdoc Hout Hsetup pdf_path.
  rewrite (main_run args w Hl Hv). cbv zeta. fold pdf_path.
  rewrite bool_decide_eq_true_2 by (unfold pdf_path; rewrite Hdoc; eauto).
  rewrite Hs.
  rewrite (pdf_to_pptx_canvas_fails _ _ _ _ _ _ _ (method args) _ pages out e);
    [| exact Hdoc | exact Hout | exact Hsetup].
  unfold log, opening_lines. cbn [fs stdout trace].
  change (mkdtemp_name (World (fs w) (stdout w) (trace w ++ [EvStat pdf_path])))
    with (mkdtemp_name w).
  by rewrite <- app_assoc.
Qed.

Lemma unusable_canvas_stops_before_rendering_witness :
  (main (MkNamespace "docs/report.pdf" None "custom" (Some nan) (Some 7.5%float)
           "high" None "auto" false false) sample_world).1
  = Raise (Exception "ValueError" "cannot convert float NaN to integer")
  ∧ rendered_dpis
      (trace (main (MkNamespace "docs/report.pdf" None "custom" (Some nan) (Some 7.5%float)
                      "high" None "auto" false false) sample_world).2) = [].
Proof.
  rewrite (unusable_canvas_stops_before_rendering
             (MkNamespace "docs/report.pdf" None "custom" (Some nan) (Some 7.5%float)
                "high" None "auto" false false) sample_world report_pdf
             (MkPath "docs" "report.pptx")
             (Exception "ValueError" "cannot convert float NaN to integer")).
  - split; vm_compute; reflexivity.
  - reflexivity.
  - reflexivity.
  - right. exists nan, 7.5%float. repeat split; reflexivity.
  - vm_compute. reflexivity.
  - vm_compute. reflexivity.
  - vm_compute. reflexivity.
Defined.

(** ** The output path *)

Lemma with_suffix_name (p out : Path) (suffix : string) :
  with_suffix p suffix = Return out -> ∃ stem, name out = stem +:+ suffix.
Proof.
  unfold with_suffix. destruct (bool_decide (name p = "")); [done|].
  destruct (split_last "."%char (name p)) as [[[|c stem] [|c' ext]]|];
    intros [= <-]; cbn [name]; eauto.
Qed.

Lemma with_suffix_returns (p : Path) (suffix : string) :
  name p ≠ "" -> ∃ out, with_suffix p suffix = Return out.
Proof.
  intros Hn. unfold with_suffix. rewrite bool_decide_eq_false_2 by done.
  destruct (split_last "."%char (name p)) as [[[|c stem] [|c' ext]]|]; eauto.
Qed.

(** X15: when no output path is given (or an empty one), the presentation
    is written beside the input: in the input's directory, under a name that
    ends in [.pptx].  That directory exists since the input does, so such a
    conversion cannot fail at the save: with a canvas that can be set and
    pages that all become slides it returns [True]. *)
Theorem derived_output_lands_beside_input
    (pdf_path : Path) (output_path : option string) (aspect_ratio : string)
    (custom_width custom_height : option float) (quality : string) (dpi : option Z)
    (method : string) (w : world) (pages : list page) (imgs : list image) (sw sh : Z) :
  truthy_str output_path = false ->
  name pdf_path ≠ "" ->
  lookup_file w pdf_path = Some (Document pages) ->
  canvas (get_slide_dimensions aspect_ratio custom_width custom_height).1
         (get_slide_dimensions aspect_ratio custom_width custom_height).2 = Some (sw, sh) ->
  Forall2 (λ pg img, page_image (effective_dpi quality dpi) pg = Some img) pages imgs ->
  ∃ out stem w',
    parent out = parent pdf_path ∧ name out = stem +:+ ".pptx"
    ∧ pdf_to_pptx pdf_path output_path aspect_ratio custom_width custom_height
        quality dpi method w = (Return true, w')
    ∧ lookup_file w' out = Some (PptxFile (Presentation sw sh (full_bleed sw sh <$> imgs))).
Proof.
  intros Hfalsy Hname Hdoc Hcanvas Hpages.
  destruct (with_suffix_returns pdf_path ".pptx" Hname) as [out Hout].
  destruct (with_suffix_name _ _ _ Hout) as [stem Hstem].
  pose proof (with_suffix_parent _ _ _ Hout) as Hparent.
  assert (Hres : resolved_output pdf_path output_path = Return out).
  { unfold resolved_output. by rewrite Hfalsy. }
  assert (Hdir : is_Some (fs w !! parent out)).
  { rewrite Hparent. by eapply lookup_file_parent. }
  destruct (pdf_to_pptx_ok _ _ _ _ _ _ _ method _ _ _ _ _ _
              Hdoc Hres Hdir Hcanvas Hpages) as (w' & Hrun & Hfile).
  by exists out, stem, w'.
Qed.

Lemma derived_output_lands_beside_input_witness :
  ∃ out stem w',
    parent out = "docs" ∧ name out = stem +:+ ".pptx"
    ∧ pdf_to_pptx (MkPath "docs" "report.pdf") (Some "") "4:3" None None "high" None "png"
        sample_world = (Return true, w')
    ∧ lookup_file w' out
      = Some (PptxFile (Presentation 9144000 6858000
                (full_bleed 9144000 6858000
                   <$> [Image 791 1024 [1%Z] false None; Image 1325 1024 [2%Z] false None]))).
Proof.
  apply (derived_output_lands_beside_input (MkPath "docs" "report.pdf") (Some "") "4:3"
           None None "high" None "png" sample_world report_pdf).
  - reflexivity.
  - discriminate.
  - vm_compute. reflexivity.
  - vm_compute. reflexivity.
  - repeat constructor.
Defined.

(** ** The page helpers *)

(** X16: on a document that opens, for a page index within it whose page
    renders at a positive resolution [d], and with the directory of the
    target path in place, both helpers return the joined path and leave
    there a PNG of the raster exactly as rendered: its own width and height,
    no resize to 1024 (unlike [pdf_to_pptx]), recorded at resolution [d].
    [convert_pdf_to_png] and the fast path have MuPDF write it from the
    raster, which [get_pixmap] tagged with [d]; with [use_pil_enhancement]
    (and [d] small enough for the PNG's resolution field) Pillow writes
    it, sharpened. *)
Theorem helpers_save_the_raster_as_rendered
    (pdf_path : Path) (output_dir : string) (k : nat) (d : Z)
    (use_pil_enhancement : bool) (w : world) (pages : list page) (pg : page)
    (pix : pixmap) :
  lookup_file w pdf_path = Some (Document pages) ->
  pages !! k = Some pg ->
  (0 < d)%Z ->
  get_pixmap pg (Some d) = Rendered pix ->
  (use_pil_enhancement = true -> ∃ ppm, png_pixels_per_metre (Some d) = Return ppm) ->
  let output_path :=
    os_path_join output_dir ("slide-" +:+ pretty (Z.of_nat k) +:+ ".png") in
  is_Some (fs w !! parent (Path_of_string output_path)) ->
  let plain := Image (pix_width pix) (pix_height pix) (pix_samples pix) false (Some d) in
  let enhanced := Image (pix_width pix) (pix_height pix) (pix_samples pix) true (Some d) in
  (∃ w', convert_pdf_to_png pdf_path output_dir (Z.of_nat k) (Some d) w
         = (Return (Some output_path), w')
       ∧ lookup_file w' (Path_of_string output_path) = Some (PngFile plain))
  ∧ (∃ w', convert_pdf_to_high_quality_png pdf_path output_dir (Z.of_nat k) (Some d)
             use_pil_enhancement w = (Return (Some output_path), w')
         ∧ lookup_file w' (Path_of_string output_path)
           = Some (PngFile (if use_pil_enhancement then enhanced else plain))).
Proof.
  intros Hdoc Hk Hd Hpix Hppm output_path [dd Hdd] plain enhanced.
  assert (Htag : truthy_int (Some d) = true).
  { unfold truthy_int. by replace (d =? 0)%Z with false by lia. }
  split.
  - unfold convert_pdf_to_png, try_except. fold output_path.
    unfold bind at 1, fitz_open. rewrite Hdoc.
    unfold bind at 1, lift at 1. rewrite (doc_getitem_nat _ _ _ Hk).
    unfold bind at 1, page_get_pixmap. rewrite Hpix, Htag.
    unfold bind at 1, Pixmap_save. cbn [fs log]. rewrite Hdd.
    unfold bind, ret. eexists. split; [reflexivity|].
    rewrite (lookup_file_put _ _ _ _ _ _ _ Hdd). by rewrite bool_decide_eq_true_2.
  - unfold convert_pdf_to_high_quality_png, try_except. fold output_path.
    unfold bind at 1, fitz_open. rewrite Hdoc.
    unfold bind at 1, lift at 1. rewrite (doc_getitem_nat _ _ _ Hk).
    unfold bind at 1, page_get_pixmap. rewrite Hpix, Htag.
    unfold bind at 1.
    destruct use_pil_enhancement.
    + destruct (Hppm eq_refl) as [ppm Hok].
      unfold Image_save_dpi. cbn [fs log]. rewrite Hdd, Hok.
      unfold bind, ret. eexists. split; [reflexivity|].
      rewrite (lookup_file_put _ _ _ _ _ _ _ Hdd). by rewrite bool_decide_eq_true_2.
    + unfold Pixmap_save. cbn [fs log]. rewrite Hdd.
      unfold bind, ret. eexists. split; [reflexivity|].
      rewrite (lookup_file_put _ _ _ _ _ _ _ Hdd). by rewrite bool_decide_eq_true_2.
Qed.

Lemma helpers_save_the_raster_as_rendered_witness :
  (∃ w', convert_pdf_to_png (MkPath "docs" "report.pdf") "docs" 1 (Some 300%Z) sample_world
         = (Return (Some "docs/slide-1.png"), w')
       ∧ lookup_file w' (MkPath "docs" "slide-1.png")
         = Some (PngFile (Image 3300 2550 [2%Z] false (Some 300%Z))))
  ∧ (∃ w', convert_pdf_to_high_quality_png (MkPath "docs" "report.pdf") "docs" 1
             (Some 300%Z) true sample_world = (Return (Some "docs/slide-1.png"), w')
         ∧ lookup_file w' (MkPath "docs" "slide-1.png")
           = Some (PngFile (Image 3300 2550 [2%Z] true (Some 300%Z)))).
Proof.
  apply (helpers_save_the_raster_as_rendered (MkPath "docs" "report.pdf") "docs" 1
           300 true sample_world report_pdf (vector_page 792 612 2)
           (Pixmap 3300 2550 [2%Z] 96)).
  - vm_compute. reflexivity.
  - reflexivity.
  - lia.
  - reflexivity.
  - intros _. exists 11811%Z. vm_compute. reflexivity.
  - eexists. vm_compute. reflexivity.
Defined.

(** X17: asked for a page index at or beyond the page count, both helpers
    return [None]: the document is opened, no page is rendered, nothing is
    written, and the one line printed names page [page_num + 1] and carries
    PyMuPDF's message, which names the index itself. *)
Theorem helpers_return_None_beyond_last_page
    (pdf_path : Path) (output_dir : string) (page_num : Z) (dpi : option Z)
    (use_pil_enhancement : bool) (w : world) (pages : list page) :
  lookup_file w pdf_path = Some (Document pages) ->
  (Z.of_nat (length pages) <= page_num)%Z ->
  let w' := World (fs w)
              (stdout w ++ [("Error converting page " +:+ pretty (page_num + 1)%Z
                             +:+ " to PNG: " +:+ "page " +:+ pretty page_num
                             +:+ " not in document") +:+ LF])
              (trace w ++ [EvOpen pdf_path]) in
  convert_pdf_to_png pdf_path output_dir page_num dpi w = (Return None, w')
  ∧ convert_pdf_to_high_quality_png pdf_path output_dir page_num dpi
      use_pil_enhancement w = (Return None, w').
Proof.
  intros Hdoc Hbeyond w'.
  assert (Hget : doc_getitem pages page_num
                 = Raise (Exception "IndexError"
                            ("page " +:+ pretty page_num +:+ " not in document"))).
  { unfold doc_getitem.
    by replace (Z.of_nat (length pages) <=? page_num)%Z with true by lia. }
  split; [unfold convert_pdf_to_png | unfold convert_pdf_to_high_quality_png];
    unfold try_except; unfold bind at 1, fitz_open; rewrite Hdoc;
    unfold bind at 1, lift at 1; rewrite Hget; reflexivity.
Qed.

Lemma helpers_return_None_beyond_last_page_witness :
  convert_pdf_to_png (MkPath "docs" "report.pdf") "docs" 2 (Some 300%Z) sample_world
  = (Return None,
     World (fs sample_world)
       [("Error converting page 3 to PNG: page 2 not in document") +:+ LF]
       [EvOpen (MkPath "docs" "report.pdf")]).
Proof.
  destruct (helpers_return_None_beyond_last_page (MkPath "docs" "report.pdf") "docs" 2
              (Some 300%Z) false sample_world report_pdf) as [H _].
  - vm_compute. reflexivity.
  - vm_compute. discriminate.
  - rewrite H. reflexivity.
Defined.

(** X18: [convert_pdf_to_high_quality_png] with [use_pil_enhancement=False]
    is [convert_pdf_to_png]: for all arguments and every world the two
    return the same value and leave the same world. *)
Theorem fast_path_is_the_basic_helper
    (pdf_path : Path) (output_dir : string) (page_num : Z) (dpi : option Z) (w : world) :
  convert_pdf_to_high_quality_png pdf_path output_dir page_num dpi false w
  = convert_pdf_to_png pdf_path output_dir page_num dpi w.
Proof. reflexivity. Qed.

(** ** The command line of main.py *)

(** X19: without an argument, and with [help], [-h] or [--help] as the
    first argument, main.py prints its usage line and exits with status 1
    (for a request for help too); it looks at no file. *)
Theorem main_py_usage_exits_1 (argv : list string) (w : world) :
  (length argv < 2)%nat ∨ (∃ a, argv !! 1%nat = Some a ∧ a ∈ ["help"; "-h"; "--help"]) ->
  main_py.main argv w =
    (Raise (SystemExit 1),
     World (fs w) (stdout w ++ ["Usage: python main.py filename.pdf" +:+ LF]) (trace w)).
Proof.
  intros Hargs. unfold main_py.main.
  assert (Hcond : ((length argv <? 2)%nat
                   || bool_decide (default "" (argv !! 1%nat) ∈ ["help"; "-h"; "--help"]))
                  = true).
  { destruct Hargs as [Hlen | (a & Ha & Hin)].
    - apply orb_true_iff. left. by apply Nat.ltb_lt.
    - apply orb_true_iff. right. rewrite Ha. by apply bool_decide_eq_true_2. }
  rewrite Hcond. reflexivity.
Qed.

Lemma main_py_usage_exits_1_witness :
  exit_status (main_py.main ["main.py"] sample_world).1 = 1%Z
  ∧ exit_status (main_py.main ["main.py"; "--help"; "docs/report.pdf"] sample_world).1 = 1%Z.
Proof.
  split.
  - rewrite (main_py_usage_exits_1 ["main.py"] sample_world); [reflexivity |].
    left. cbn. lia.
  - rewrite (main_py_usage_exits_1 ["main.py"; "--help"; "docs/report.pdf"] sample_world);
      [reflexivity |].
    right. exists "--help". split; [reflexivity |]. rewrite !elem_of_cons. tauto.
Defined.

(** X20: with a first argument that is not a help word, main.py converts
    the file it names, whatever follows it on the command line: it leaves
    the world the conversion leaves, exits with status 0 when the
    conversion returns [True] and with status 1 when it returns [False],
    and does not catch an exception of the conversion. *)
Theorem main_py_exit_status_follows_conversion
    (prog file : string) (more : list string) (w : world) :
  file ∉ ["help"; "-h"; "--help"] ->
  let r := main_py.pdf_to_pptx (Path_of_string file) w in
  (main_py.main (prog :: file :: more) w).2 = r.2
  ∧ (r.1 = Return true -> (main_py.main (prog :: file :: more) w).1 = Raise (SystemExit 0))
  ∧ (r.1 = Return false -> (main_py.main (prog :: file :: more) w).1 = Raise (SystemExit 1))
  ∧ (∀ e, r.1 = Raise e -> (main_py.main (prog :: file :: more) w).1 = Raise e).
Proof.
  intros Hfile r. unfold main_py.main.
  change (default "" ((prog :: file :: more) !! 1%nat)) with file. cbn [length].
  replace (S (S (length more)) <? 2)%nat with false
    by (symmetry; apply Nat.ltb_ge; lia).
  rewrite bool_decide_eq_false_2 by done. cbn [orb].
  unfold bind. fold r.
  destruct r as [[[|]|e] w']; cbn [fst snd]; repeat split; try done;
    by intros e' [= <-].
Qed.

Lemma main_py_exit_status_follows_conversion_witness :
  (main_py.main ["main.py"; "docs/report.pdf"; "ignored"] sample_world).1
  = Raise (SystemExit 0)
  ∧ (main_py.main ["main.py"; "docs/absent.pdf"] sample_world).1 = Raise (SystemExit 1).
Proof.
  split.
  - destruct (main_py_exit_status_follows_conversion "main.py" "docs/report.pdf" ["ignored"]
                sample_world) as (_ & Hok & _).
    + rewrite !elem_of_cons, elem_of_nil.
      intros H. repeat (destruct H as [H|H]; [discriminate H|]). exact H.
    + apply Hok. vm_compute. reflexivity.
  - destruct (main_py_exit_status_follows_conversion "main.py" "docs/absent.pdf" []
                sample_world) as (_ & _ & Hfalse & _).
    + rewrite !elem_of_cons, elem_of_nil.
      intros H. repeat (destruct H as [H|H]; [discriminate H|]). exact H.
    + apply Hfalse. vm_compute. reflexivity.
Defined.
